(** * apply-vllm-pr31607.py: a shallow embedding and its properties

    The script patches four files of a vLLM checkout by substring search and
    replace.  The embedding follows the script function by function:

    - Python [str] values are [string]s; [in], [str.replace], [str.split],
      [re.search] and [re.sub] are total functions on them;
    - the file system, the console and the record of file operations form a
      [world] that every function threads through a state-and-exception monad;
    - [os.path.exists], [open(..., 'r').read()], [open(..., 'w').write()] and
      [print] are the primitive actions of that monad. *)

From Stdlib Require Import Ascii ZArith Lia.
From stdpp Require Import base gmap strings list.

Local Open Scope Z_scope.
Local Open Scope list_scope.
Local Open Scope stdpp_scope.

(** ** Python strings *)

Module PyStr.

Definition eqb_ascii (a b : ascii) : bool := Ascii.eqb a b.

(** [s.startswith(p)]. *)
Fixpoint startswith (p s : string) : bool :=
  match p with
  | EmptyString => true
  | String a p' =>
      match s with
      | EmptyString => false
      | String b s' => eqb_ascii a b && startswith p' s'
      end
  end.

(** [p in s]: some suffix of [s] starts with [p]. *)
Fixpoint contains (p s : string) : bool :=
  match s with
  | EmptyString => startswith p EmptyString
  | String _ s' => startswith p s || contains p s'
  end.

(** The scanning loop of [str.replace]: [skip] counts the characters of the
    occurrence just replaced that are still to be passed over. *)
Fixpoint replace_scan (old new : string) (skip : nat) (s : string) : string :=
  match s with
  | EmptyString => EmptyString
  | String c s' =>
      match skip with
      | S k => replace_scan old new k s'
      | O =>
          if startswith old s
          then new +:+ replace_scan old new (String.length old - 1) s'
          else String c (replace_scan old new 0 s')
      end
  end.

(** With an empty [old], Python puts [new] before every character and at
    the end. *)
Fixpoint intersperse (new s : string) : string :=
  match s with
  | EmptyString => new
  | String c s' => new +:+ String c (intersperse new s')
  end.

(** [s.replace(old, new)]: every occurrence found scanning left to right,
    occurrences not overlapping. *)
Definition replace (old new s : string) : string :=
  match old with
  | EmptyString => intersperse new s
  | String _ _ => replace_scan old new 0 s
  end.

(** The loop of [str.split(sep)] for a non-empty [sep]; [acc] is the piece
    being collected. *)
Fixpoint split_scan (sep : string) (skip : nat) (acc s : string) : list string :=
  match s with
  | EmptyString => [acc]
  | String c s' =>
      match skip with
      | S k => split_scan sep k acc s'
      | O =>
          if startswith sep s
          then acc :: split_scan sep (String.length sep - 1) EmptyString s'
          else split_scan sep 0 (acc +:+ String c EmptyString) s'
      end
  end.

(** [s.split(sep)]; Python raises [ValueError] on an empty separator, which
    is [None] here. *)
Definition split (sep s : string) : option (list string) :=
  match sep with
  | EmptyString => None
  | String _ _ => Some (split_scan sep 0 EmptyString s)
  end.

(** [sep.join(l)]. *)
Fixpoint join (sep : string) (l : list string) : string :=
  match l with
  | [] => EmptyString
  | [x] => x
  | x :: l' => x +:+ sep +:+ join sep l'
  end.

(** [s * n]. *)
Fixpoint times (s : string) (n : nat) : string :=
  match n with
  | O => EmptyString
  | S k => s +:+ times s k
  end.

Definition LF : ascii := "010"%char.
Definition CR : ascii := "013"%char.
Definition DQUOTE : ascii := "034"%char.
Definition BACKSLASH : ascii := "092"%char.

Definition nl : string := String LF EmptyString.
Definition dq : string := String DQUOTE EmptyString.

(** A triple-quoted literal, given line by line. *)
Definition text (lines : list string) : string := join nl lines.

End PyStr.

Import PyStr.

(** ** Results and exceptions *)

(** The exceptions the script can meet: [OSError] from [open] (with the path
    it was opening), [ValueError] from [str.split] and [IndexError] from list
    indexing. *)
Inductive exn : Type :=
  | OSError (path : string)
  | ValueError
  | IndexError.

Inductive result (A : Type) : Type :=
  | Ok (a : A)
  | Raise (e : exn).

Arguments Ok {A} a.
Arguments Raise {A} e.

Definition result_bind {A B : Type} (r : result A) (k : A -> result B) : result B :=
  match r with
  | Ok a => k a
  | Raise e => Raise e
  end.

(** [s.split(sep)]: [ValueError] on an empty separator. *)
Definition py_split (sep s : string) : result (list string) :=
  match split sep s with
  | Some l => Ok l
  | None => Raise ValueError
  end.

(** [l[i]] with Python's negative indices. *)
Definition py_index {A : Type} (l : list A) (i : Z) : result A :=
  let n := Z.of_nat (length l) in
  let j := if (i <? 0)%Z then (n + i)%Z else i in
  if ((0 <=? j) && (j <? n))%Z
  then match l !! Z.to_nat j with
       | Some x => Ok x
       | None => Raise IndexError
       end
  else Raise IndexError.

(** ** The fragment of [re] the script uses

    The only pattern of the script, [< \(11, 0\)], is made of ordinary
    characters and backslash-escaped punctuation, and its replacement has no
    backslash.  On that fragment a pattern matches exactly one literal
    string, [re.search] is substring search and [re.sub] replaces the
    leftmost non-overlapping occurrences, as [str.replace] does. *)

Definition is_re_meta (c : ascii) : bool :=
  contains (String c EmptyString) ".^$*+?{}[]|()".

Definition is_alnum (c : ascii) : bool :=
  let n := nat_of_ascii c in
  ((48 <=? n) && (n <=? 57) || (65 <=? n) && (n <=? 90) || (97 <=? n) && (n <=? 122))%nat.

(** The literal a pattern of the fragment matches; [None] outside it. *)
Fixpoint re_literal (pat : string) : option string :=
  match pat with
  | EmptyString => Some EmptyString
  | String c rest =>
      if eqb_ascii c BACKSLASH then
        match rest with
        | EmptyString => None
        | String d rest' =>
            if is_alnum d then None
            else match re_literal rest' with
                 | Some l => Some (String d l)
                 | None => None
                 end
        end
      else if is_re_meta c then None
      else match re_literal rest with
           | Some l => Some (String c l)
           | None => None
           end
  end.

(** The text a replacement template stands for; [None] when it holds a
    backslash (group references and escapes are outside the fragment). *)
Definition re_template (repl : string) : option string :=
  if contains (String BACKSLASH EmptyString) repl then None else Some repl.

(** [re.search(pat, s)] as a truth value. *)
Definition re_search (pat s : string) : bool :=
  match re_literal pat with
  | Some lit => contains lit s
  | None => false
  end.

(** [re.sub(pat, repl, s)]. *)
Definition re_sub (pat repl s : string) : string :=
  match re_literal pat, re_template repl with
  | Some lit, Some new => replace lit new s
  | _, _ => s
  end.

(** ** Paths *)

(** [s.endswith(p)]. *)
Fixpoint endswith (p s : string) : bool :=
  String.eqb p s ||
  match s with
  | EmptyString => false
  | String _ s' => endswith p s'
  end.

(** [os.path.join(a, b)] on POSIX. *)
Definition path_join (a b : string) : string :=
  if startswith "/" b then b
  else if String.eqb a EmptyString || endswith "/" a then a +:+ b
  else a +:+ "/" +:+ b.

(** ** The world: files, console, and the record of file operations *)

(** Python opens both files in text mode with the default [newline=None]:
    reading turns every [\r\n] and every lone [\r] into [\n]; writing turns
    [\n] into [os.linesep], which on POSIX is [\n] itself. *)
Fixpoint universal_newlines (s : string) : string :=
  match s with
  | EmptyString => EmptyString
  | String c s' =>
      if eqb_ascii c CR then
        match s' with
        | EmptyString => String LF EmptyString
        | String c' s'' =>
            if eqb_ascii c' LF
            then String LF (universal_newlines s'')
            else String LF (universal_newlines s')
        end
      else String c (universal_newlines s')
  end.

(** What a path resolves to: the stored characters, whether opening it for
    reading (and decoding it) succeeds, and whether opening it for writing
    succeeds.  A directory, or a file without permissions, exists and is
    neither readable nor writable.

    [readable] stands for the whole of [open(path, 'r')] and [f.read()]:
    where it is [false] the model raises [OSError], the class of what
    [open] raises.  A file that opens and does not decode makes Python
    raise [UnicodeDecodeError] from [f.read()]; the model has no class of
    its own for it, so the class of the exception is meant only where the
    step that fails is [open]. *)
Record node : Type := Node {
  data : string;
  readable : bool;
  writable : bool
}.

Inductive fs_op : Type :=
  | OpExists (path : string)
  | OpRead (path : string)
  | OpWrite (path : string) (written : string).

(** [files] gives every path a node of its own: two paths that reach one
    file through a symbolic or hard link are outside the model.  [stdout]
    holds the argument of every [print] call, oldest first; [ops] holds the
    file operations that were carried out, oldest first, each with the path
    it was called on. *)
Record world : Type := World {
  files : gmap string node;
  stdout : list string;
  ops : list fs_op
}.

Definition emit (line : string) (w : world) : world :=
  World (files w) (stdout w ++ [line]) (ops w).

Definition record (o : fs_op) (w : world) : world :=
  World (files w) (stdout w) (ops w ++ [o]).

Definition store (path : string) (n : node) (w : world) : world :=
  World (<[path := n]> (files w)) (stdout w) (ops w).

(** ** The monad of the script: state and exceptions *)

Definition M (A : Type) : Type := world -> result A * world.

Definition ret {A : Type} (a : A) : M A := fun w => (Ok a, w).

Definition bind {A B : Type} (m : M A) (k : A -> M B) : M B :=
  fun w =>
    match m w with
    | (Ok a, w') => k a w'
    | (Raise e, w') => (Raise e, w')
    end.

Definition lift {A : Type} (r : result A) : M A := fun w => (r, w).

Notation "'do' x <- m ; k" := (bind m (fun x => k))
  (at level 10, x name, m at level 100, k at level 200).
Notation "'run' m ; k" := (bind m (fun _ => k))
  (at level 10, m at level 100, k at level 200).

(** [for x in l: body(x)]. *)
Fixpoint for_each {A : Type} (l : list A) (body : A -> M unit) : M unit :=
  match l with
  | [] => ret tt
  | x :: l' => run body x; for_each l' body
  end.

(** [for x in l: state = body(state, x)]. *)
Fixpoint for_fold {A S : Type} (l : list A) (body : S -> A -> M S) (s : S) : M S :=
  match l with
  | [] => ret s
  | x :: l' => do s' <- body s x; for_fold l' body s'
  end.

(** [print(line)]. *)
Definition print (line : string) : M unit :=
  fun w => (Ok tt, emit line w).

(** [os.path.exists(path)]. *)
Definition path_exists (path : string) : M bool :=
  fun w =>
    (Ok (match files w !! path with Some _ => true | None => false end),
     record (OpExists path) w).

(** [with open(path, 'r') as f: f.read()]. *)
Definition read_text (path : string) : M string :=
  fun w =>
    match files w !! path with
    | Some n =>
        if readable n
        then (Ok (universal_newlines (data n)), record (OpRead path) w)
        else (Raise (OSError path), w)
    | None => (Raise (OSError path), w)
    end.

(** [with open(path, 'w') as f: f.write(content)]: the file is truncated and
    rewritten; a path that does not exist yet is created. *)
Definition write_text (path content : string) : M unit :=
  fun w =>
    match files w !! path with
    | Some n =>
        if writable n
        then (Ok tt, record (OpWrite path content)
                       (store path (Node content (readable n) (writable n)) w))
        else (Raise (OSError path), w)
    | None =>
        (Ok tt, record (OpWrite path content) (store path (Node content true true) w))
    end.

(** ** The script *)

Section Script.

(** [VLLM_DIR = os.environ.get('VLLM_DIR', '/build/vllm')], fixed when the
    module is loaded. *)
Variable VLLM_DIR : string.

(** *** [patch_custom_ops] *)

Definition custom_ops_marker : string :=
  "cutlass_scaled_mm_supports_fp8 unavailable".

Definition custom_ops_old : string := text
  [ "def cutlass_scaled_mm_supports_fp8(cuda_device_capability: int) -> bool:";
    "    return torch.ops._C.cutlass_scaled_mm_supports_fp8(cuda_device_capability)" ].

Definition custom_ops_new : string := text
  [ "def cutlass_scaled_mm_supports_fp8(cuda_device_capability: int) -> bool:";
    "    try:";
    "        return torch.ops._C.cutlass_scaled_mm_supports_fp8(cuda_device_capability)";
    "    except Exception as e:";
    "        import warnings";
    "        warnings.warn(f" +:+ dq +:+ "cutlass_scaled_mm_supports_fp8 unavailable: {e}"
      +:+ dq +:+ ")";
    "        return False" ].

Definition custom_ops_old2 : string := text
  [ "def cutlass_scaled_mm_supports_block_fp8(cuda_device_capability: int) -> bool:";
    "    return torch.ops._C.cutlass_scaled_mm_supports_block_fp8(";
    "        cuda_device_capability)" ].

Definition custom_ops_new2 : string := text
  [ "def cutlass_scaled_mm_supports_block_fp8(cuda_device_capability: int) -> bool:";
    "    try:";
    "        return torch.ops._C.cutlass_scaled_mm_supports_block_fp8(";
    "            cuda_device_capability)";
    "    except Exception as e:";
    "        import warnings";
    "        warnings.warn(f" +:+ dq
      +:+ "cutlass_scaled_mm_supports_block_fp8 unavailable: {e}" +:+ dq +:+ ")";
    "        return False" ].

Definition patch_custom_ops : M bool :=
  let filepath := path_join VLLM_DIR "vllm/_custom_ops.py" in
  do found <- path_exists filepath;
  if negb found then
    run print ("WARNING: " +:+ filepath +:+ " not found, skipping");
    ret false
  else
    do content <- read_text filepath;
    if contains custom_ops_marker content then
      run print ("SKIP: " +:+ filepath +:+ " already patched");
      ret true
    else
      do content <-
        (if contains custom_ops_old content then
           let content := replace custom_ops_old custom_ops_new content in
           run print ("PATCHED: cutlass_scaled_mm_supports_fp8 in " +:+ filepath);
           ret content
         else
           run print ("WARNING: Could not find cutlass_scaled_mm_supports_fp8 pattern in "
                      +:+ filepath);
           ret content);
      do content <-
        (if contains custom_ops_old2 content then
           let content := replace custom_ops_old2 custom_ops_new2 content in
           run print ("PATCHED: cutlass_scaled_mm_supports_block_fp8 in " +:+ filepath);
           ret content
         else
           run print
             ("WARNING: Could not find cutlass_scaled_mm_supports_block_fp8 pattern in "
              +:+ filepath);
           ret content);
      run write_text filepath content;
      ret true.

(** *** [patch_mxfp4] *)

Definition mxfp4_marker : string := "<= (12, 1)".
Definition mxfp4_old_pattern : string := "< \(11, 0\)".
Definition mxfp4_new_pattern : string := "<= (12, 1)".

Definition patch_mxfp4 : M bool :=
  let filepath :=
    path_join VLLM_DIR "vllm/model_executor/layers/quantization/mxfp4.py" in
  do found <- path_exists filepath;
  if negb found then
    run print ("WARNING: " +:+ filepath +:+ " not found, skipping");
    ret false
  else
    do content <- read_text filepath;
    if contains mxfp4_marker content then
      run print ("SKIP: " +:+ filepath +:+ " already patched");
      ret true
    else
      do content <-
        (if re_search mxfp4_old_pattern content then
           let content := re_sub mxfp4_old_pattern mxfp4_new_pattern content in
           run print ("PATCHED: device capability range in " +:+ filepath);
           ret content
         else
           run print ("WARNING: Could not find capability pattern in " +:+ filepath);
           ret content);
      run write_text filepath content;
      ret true.

(** *** [patch_w8a8_utils] *)

Definition w8a8_marker1 : string := "CUTLASS_FP8_SUPPORTED = False".
Definition w8a8_marker2 : string := "except Exception".

Definition w8a8_old : string := "CUTLASS_FP8_SUPPORTED = cutlass_fp8_supported()".

Definition w8a8_new : string := text
  [ "try:";
    "    CUTLASS_FP8_SUPPORTED = cutlass_fp8_supported()";
    "except Exception:";
    "    CUTLASS_FP8_SUPPORTED = False" ].

Definition w8a8_old2 : string :=
  "CUTLASS_BLOCK_FP8_SUPPORTED = cutlass_block_fp8_supported()".

Definition w8a8_new2 : string := text
  [ "try:";
    "    CUTLASS_BLOCK_FP8_SUPPORTED = cutlass_block_fp8_supported()";
    "except Exception:";
    "    CUTLASS_BLOCK_FP8_SUPPORTED = False" ].

Definition patch_w8a8_utils : M bool :=
  let filepath :=
    path_join VLLM_DIR "vllm/model_executor/layers/quantization/utils/w8a8_utils.py" in
  do found <- path_exists filepath;
  if negb found then
    run print ("WARNING: " +:+ filepath +:+ " not found, skipping");
    ret false
  else
    do content <- read_text filepath;
    if contains w8a8_marker1 content && contains w8a8_marker2 content then
      run print ("SKIP: " +:+ filepath +:+ " already patched");
      ret true
    else
      do content <-
        (if contains w8a8_old content then
           let content := replace w8a8_old w8a8_new content in
           run print ("PATCHED: CUTLASS_FP8_SUPPORTED in " +:+ filepath);
           ret content
         else
           run print ("WARNING: Could not find CUTLASS_FP8_SUPPORTED pattern in "
                      +:+ filepath);
           ret content);
      do content <-
        (if contains w8a8_old2 content then
           let content := replace w8a8_old2 w8a8_new2 content in
           run print ("PATCHED: CUTLASS_BLOCK_FP8_SUPPORTED in " +:+ filepath);
           ret content
         else
           run print ("WARNING: Could not find CUTLASS_BLOCK_FP8_SUPPORTED pattern in "
                      +:+ filepath);
           ret content);
      run write_text filepath content;
      ret true.

(** *** [patch_matcher_utils] *)

Definition matcher_marker : string :=
  "hasattr(torch.ops._C, " +:+ dq +:+ "silu_and_mul" +:+ dq +:+ ")".

Definition matcher_old : string := "SILU_MUL_OP = torch.ops._C.silu_and_mul.default".

Definition matcher_new : string :=
  "SILU_MUL_OP = torch.ops._C.silu_and_mul.default if hasattr(torch.ops._C, "
  +:+ dq +:+ "silu_and_mul" +:+ dq +:+ ") else None".

Definition fp8_patterns : list (string * string) :=
  [ ("torch.ops._C.static_scaled_fp8_quant.default",
     "torch.ops._C.static_scaled_fp8_quant.default if hasattr(torch.ops._C, "
     +:+ dq +:+ "static_scaled_fp8_quant" +:+ dq +:+ ") else None");
    ("torch.ops._C.dynamic_scaled_fp8_quant.default",
     "torch.ops._C.dynamic_scaled_fp8_quant.default if hasattr(torch.ops._C, "
     +:+ dq +:+ "dynamic_scaled_fp8_quant" +:+ dq +:+ ") else None");
    ("torch.ops._C.dynamic_per_token_scaled_fp8_quant.default",
     "torch.ops._C.dynamic_per_token_scaled_fp8_quant.default if hasattr(torch.ops._C, "
     +:+ dq +:+ "dynamic_per_token_scaled_fp8_quant" +:+ dq +:+ ") else None") ].

(** [content.split(old_pat)[0].split('\n')[-1]]: what stands before the
    first occurrence of [old_pat] on its line. *)
Definition line_before (old_pat content : string) : result string :=
  result_bind (py_split old_pat content) (fun parts =>
  result_bind (py_index parts 0) (fun before =>
  result_bind (py_split nl before) (fun lines =>
  py_index lines (-1)))).

(** The body of the loop over [fp8_patterns]; the loop state is
    [(content, patched)]. *)
Definition fp8_body (filepath : string) (st : string * bool) (rule : string * string)
  : M (string * bool) :=
  let '(content, patched) := st in
  let '(old_pat, new_pat) := rule in
  if contains old_pat content then
    do line <- lift (line_before old_pat content);
    if negb (contains "hasattr" line) then
      let content := replace old_pat new_pat content in
      do parts <- lift (py_split "." old_pat);
      do name <- lift (py_index parts (-2));
      run print ("PATCHED: " +:+ name +:+ " in " +:+ filepath);
      let patched := true in
      ret (content, patched)
    else ret (content, patched)
  else ret (content, patched).

Definition patch_matcher_utils : M bool :=
  let filepath := path_join VLLM_DIR "vllm/compilation/matcher_utils.py" in
  do found <- path_exists filepath;
  if negb found then
    run print ("WARNING: " +:+ filepath +:+ " not found, skipping");
    ret false
  else
    do content <- read_text filepath;
    if contains matcher_marker content then
      run print ("SKIP: " +:+ filepath +:+ " already patched");
      ret true
    else
      let patched := false in
      do st <-
        (if contains matcher_old content then
           let content := replace matcher_old matcher_new content in
           run print ("PATCHED: SILU_MUL_OP in " +:+ filepath);
           let patched := true in
           ret (content, patched)
         else ret (content, patched));
      do st <- for_fold fp8_patterns (fp8_body filepath) st;
      let '(content, patched) := st in
      run (if negb patched then
             print ("WARNING: No patterns found to patch in " +:+ filepath)
           else ret tt);
      run write_text filepath content;
      ret true.

(** *** [main] *)

Definition summary_line (entry : string * bool) : string :=
  let '(name, success) := entry in
  let status := if success then "OK" else "FAILED" in
  "  " +:+ name +:+ ": " +:+ status.

Definition main : M Z :=
  run print (times "=" 60);
  run print "Applying vLLM PR #31607 patches for SM 12.1 (Blackwell GB10)";
  run print (times "=" 60);
  run print ("VLLM_DIR: " +:+ VLLM_DIR);
  run print EmptyString;
  let results := [] in
  do r <- patch_custom_ops;
  let results := results ++ [("_custom_ops.py", r)] in
  do r <- patch_mxfp4;
  let results := results ++ [("mxfp4.py", r)] in
  do r <- patch_w8a8_utils;
  let results := results ++ [("w8a8_utils.py", r)] in
  do r <- patch_matcher_utils;
  let results := results ++ [("matcher_utils.py", r)] in
  run print EmptyString;
  run print (times "=" 60);
  run print "Summary:";
  run for_each results (fun entry => print (summary_line entry));
  let failed := map fst (List.filter (fun entry => negb (snd entry)) results) in
  match failed with
  | _ :: _ =>
      run print (nl +:+ "WARNING: Some patches failed: " +:+ join ", " failed);
      ret 1%Z
  | [] =>
      run print (nl +:+ "All patches applied successfully!");
      ret 0%Z
  end.


End Script.

(** ** The units, their targets and their outcomes

    The script has one function per file.  To speak of the four at once,
    the definitions below name the units and give the rules of each function
    as data, with a small executor for them.  They add nothing to the
    script: the lemmas [patch_missing], [patch_unreadable], [patch_skip],
    [patch_apply] and [patch_unwritable] prove, path by path, that each
    function does what these definitions say. *)

Inductive unit_id : Type := CustomOps | Mxfp4 | W8a8Utils | MatcherUtils.

(** The order in which [main] runs them. *)
Definition units : list unit_id := [CustomOps; Mxfp4; W8a8Utils; MatcherUtils].

Definition target_rel (u : unit_id) : string :=
  match u with
  | CustomOps => "vllm/_custom_ops.py"
  | Mxfp4 => "vllm/model_executor/layers/quantization/mxfp4.py"
  | W8a8Utils => "vllm/model_executor/layers/quantization/utils/w8a8_utils.py"
  | MatcherUtils => "vllm/compilation/matcher_utils.py"
  end.

Definition target (dir : string) (u : unit_id) : string :=
  path_join dir (target_rel u).

Definition patch (dir : string) (u : unit_id) : M bool :=
  match u with
  | CustomOps => patch_custom_ops dir
  | Mxfp4 => patch_mxfp4 dir
  | W8a8Utils => patch_w8a8_utils dir
  | MatcherUtils => patch_matcher_utils dir
  end.

(** The "already patched" test of each function. *)
Definition already_applied (u : unit_id) (content : string) : bool :=
  match u with
  | CustomOps => contains custom_ops_marker content
  | Mxfp4 => contains mxfp4_marker content
  | W8a8Utils => contains w8a8_marker1 content && contains w8a8_marker2 content
  | MatcherUtils => contains matcher_marker content
  end.

(** A search-and-replace rule as the functions carry them out: [regex] rules
    go through [re.search] and [re.sub], the others through [in] and
    [str.replace]; a [guarded] rule is the loop body of
    [patch_matcher_utils], which also looks for [hasattr] on the line. *)
Record rule : Type := Rule {
  search : string;
  replacement : string;
  regex : bool;
  guarded : bool
}.

(** An entry of [fp8_patterns] as a rule. *)
Definition fp8_rule (entry : string * string) : rule :=
  Rule (fst entry) (snd entry) false true.

Definition rules (u : unit_id) : list rule :=
  match u with
  | CustomOps =>
      [ Rule custom_ops_old custom_ops_new false false;
        Rule custom_ops_old2 custom_ops_new2 false false ]
  | Mxfp4 => [ Rule mxfp4_old_pattern mxfp4_new_pattern true false ]
  | W8a8Utils =>
      [ Rule w8a8_old w8a8_new false false;
        Rule w8a8_old2 w8a8_new2 false false ]
  | MatcherUtils =>
      Rule matcher_old matcher_new false false :: map fp8_rule fp8_patterns
  end.

Definition found (r : rule) (content : string) : bool :=
  if regex r then re_search (search r) content else contains (search r) content.

(** [line_before] without its exceptions, which a non-empty pattern never
    raises. *)
Definition line_of (old_pat content : string) : string :=
  match line_before old_pat content with
  | Ok line => line
  | Raise _ => EmptyString
  end.

Definition applies (r : rule) (content : string) : bool :=
  found r content &&
  (if guarded r then negb (contains "hasattr" (line_of (search r) content)) else true).

Definition substitute (r : rule) (content : string) : string :=
  if regex r then re_sub (search r) (replacement r) content
  else replace (search r) (replacement r) content.

(** One rule: applied to the whole content, or skipped. *)
Definition step (content : string) (r : rule) : string :=
  if applies r content then substitute r content else content.

(** The rules in order, each on what the earlier ones left; with the number
    of rules applied. *)
Fixpoint run_rules (rs : list rule) (content : string) : string * nat :=
  match rs with
  | [] => (content, O)
  | r :: rs' =>
      let '(c, k) := run_rules rs' (step content r) in
      (c, if applies r content then S k else k)
  end.

Definition rewritten (u : unit_id) (content : string) : string :=
  fst (run_rules (rules u) content).

Definition applied_count (u : unit_id) (content : string) : nat :=
  snd (run_rules (rules u) content).

(** The five outcomes of a unit. *)
Inductive PatchOutcome : Type :=
  | SkippedMissing
  | SkippedAlreadyApplied
  | Applied
  | AppliedPartial
  | NoOp.

Definition outcome_of_count (k n : nat) : PatchOutcome :=
  if (k =? 0)%nat then NoOp
  else if (k <? n)%nat then AppliedPartial
  else Applied.

(** A function reports its outcome through its return value and what it
    prints: [False] when the file is missing, a [SKIP:] line when it is
    already patched, and otherwise one [PATCHED:] line per rule applied. *)
Definition classify (nrules : nat) (returned : bool) (printed : list string)
  : PatchOutcome :=
  if negb returned then SkippedMissing
  else if existsb (startswith "SKIP: ") printed then SkippedAlreadyApplied
  else outcome_of_count (length (List.filter (startswith "PATCHED: ") printed)) nrules.

(** Run a unit and read its outcome off the lines it added to the console. *)
Definition observe (dir : string) (u : unit_id) : M PatchOutcome :=
  fun w =>
    match patch dir u w with
    | (Ok b, w') =>
        (Ok (classify (length (rules u)) b (drop (length (stdout w)) (stdout w'))), w')
    | (Raise e, w') => (Raise e, w')
    end.

Fixpoint observe_all (dir : string) (us : list unit_id)
  : M (list (unit_id * PatchOutcome)) :=
  match us with
  | [] => ret []
  | u :: us' =>
      do o <- observe dir u;
      do rest <- observe_all dir us';
      ret ((u, o) :: rest)
  end.

(** The banner [main] prints before the first unit. *)
Definition banner (dir : string) : M unit :=
  run print (times "=" 60);
  run print "Applying vLLM PR #31607 patches for SM 12.1 (Blackwell GB10)";
  run print (times "=" 60);
  run print ("VLLM_DIR: " +:+ dir);
  print EmptyString.

(** The outcomes of the four units as [main] runs them. *)
Definition run_report (dir : string) : M (list (unit_id * PatchOutcome)) :=
  run banner dir;
  observe_all dir units.

(** What a run added to the record of file operations. *)
Definition new_ops (w w' : world) : list fs_op := drop (length (ops w)) (ops w').

Definition op_path (o : fs_op) : string :=
  match o with
  | OpExists p => p
  | OpRead p => p
  | OpWrite p _ => p
  end.

Definition is_write (o : fs_op) : bool :=
  match o with
  | OpWrite _ _ => true
  | _ => false
  end.

(** No file of the four targets fails to open. *)
Definition io_ok (dir : string) (w : world) : Prop :=
  forall u n, files w !! target dir u = Some n -> readable n = true /\ writable n = true.

(** ** Checks on pairs of strings *)

(** Two strings laid at the same place agree as far as both reach. *)
Definition agree (a b : string) : bool := startswith a b || startswith b a.

(** No non-empty suffix of [s] agrees with [t]. *)
Fixpoint no_suffix_agrees (s t : string) : bool :=
  match s with
  | EmptyString => true
  | String _ s' => negb (agree s t) && no_suffix_agrees s' t
  end.

(** No occurrence of [old] can share a character with an occurrence of [m]:
    [old] cannot start inside [m], nor end inside it or cover it. *)
Definition apart (old m : string) : bool :=
  match old with
  | EmptyString => false
  | String _ old' => no_suffix_agrees m old && no_suffix_agrees old' m
  end.

(** No occurrence of [old] in [x +:+ y] begins in [x] and ends in [y]. *)
Definition no_straddle (old x y : string) : Prop :=
  forall u v t,
    x = u +:+ v -> v <> EmptyString -> old = v +:+ t -> t <> EmptyString ->
    startswith t y = false.

(** ** Worlds after a run *)

(** The world after a unit that checked its target [p], read it, printed
    [lines] and wrote [content]; the node keeps its permissions. *)
Definition patched_world (p : string) (n : node) (content : string)
    (lines : list string) (w : world) : world :=
  World (<[p := Node content (readable n) (writable n)]> (files w))
        (stdout w ++ lines)
        (ops w ++ [OpExists p; OpRead p; OpWrite p content]).

(** The world after printing [lines]. *)
Definition emits (lines : list string) (w : world) : world :=
  World (files w) (stdout w ++ lines) (ops w).

(** [old_pat.split('.')[-2]], the name the loop of [patch_matcher_utils]
    prints. *)
Definition name_of (old_pat : string) : string :=
  match result_bind (py_split "." old_pat) (fun parts => py_index parts (-2)) with
  | Ok name => name
  | Raise _ => EmptyString
  end.

(** The lines the loop of [patch_matcher_utils] prints on [content]. *)
Fixpoint fp8_lines (p : string) (entries : list (string * string)) (content : string)
  : list string :=
  match entries with
  | [] => []
  | e :: entries' =>
      if applies (fp8_rule e) content
      then ("PATCHED: " +:+ name_of (fst e) +:+ " in " +:+ p)
           :: fp8_lines p entries' (replace (fst e) (snd e) content)
      else fp8_lines p entries' content
  end.

(** An entry the loop body handles without an exception. *)
Definition fp8_entry_ok (e : string * string) : Prop :=
  fst e <> EmptyString /\
  exists parts, py_split "." (fst e) = Ok parts /\ py_index parts (-2) = Ok (name_of (fst e)).

(** The world after a unit that checked and read its target and printed
    [lines], without writing. *)
Definition read_world (p : string) (lines : list string) (w : world) : world :=
  World (files w) (stdout w ++ lines) (ops w ++ [OpExists p; OpRead p]).

(** The world after a unit that only checked its target and printed
    [lines]. *)
Definition checked_world (p : string) (lines : list string) (w : world) : world :=
  World (files w) (stdout w ++ lines) (ops w ++ [OpExists p]).

(** ** The cases of one unit *)

Definition missing_line (p : string) : string := "WARNING: " +:+ p +:+ " not found, skipping".

Definition skip_line (p : string) : string := "SKIP: " +:+ p +:+ " already patched".

(** [unit_run dir u w r w']: on the world [w], the function of unit [u] ends
    with [r] in the world [w'].  One constructor per path through the
    function. *)
Inductive unit_run (dir : string) (u : unit_id) (w : world) : result bool -> world -> Prop :=
  | RunMissing :
      files w !! target dir u = None ->
      unit_run dir u w (Ok false)
        (checked_world (target dir u) [missing_line (target dir u)] w)
  | RunUnreadable n :
      files w !! target dir u = Some n -> readable n = false ->
      unit_run dir u w (Raise (OSError (target dir u))) (record (OpExists (target dir u)) w)
  | RunSkip n :
      files w !! target dir u = Some n -> readable n = true ->
      already_applied u (universal_newlines (data n)) = true ->
      unit_run dir u w (Ok true) (read_world (target dir u) [skip_line (target dir u)] w)
  | RunApply n lines :
      files w !! target dir u = Some n -> readable n = true ->
      already_applied u (universal_newlines (data n)) = false ->
      writable n = true ->
      classify (length (rules u)) true lines =
        outcome_of_count (applied_count u (universal_newlines (data n))) (length (rules u)) ->
      unit_run dir u w (Ok true)
        (patched_world (target dir u) n (rewritten u (universal_newlines (data n))) lines w)
  | RunUnwritable n lines :
      files w !! target dir u = Some n -> readable n = true ->
      already_applied u (universal_newlines (data n)) = false ->
      writable n = false ->
      unit_run dir u w (Raise (OSError (target dir u))) (read_world (target dir u) lines w).

(** Whether a path exists. *)
Definition present (w : world) (path : string) : bool :=
  match files w !! path with
  | Some _ => true
  | None => false
  end.

(** Two worlds with the same paths and the same permissions. *)
Definition same_shape (w w' : world) : Prop :=
  forall q,
    match files w !! q, files w' !! q with
    | Some a, Some b => readable a = readable b /\ writable a = writable b
    | None, None => True
    | _, _ => False
    end.

(** ** [main] in two parts *)

(** The calls of the four functions, in order, with their return values. *)
Fixpoint run_units (dir : string) (us : list unit_id) : M (list bool) :=
  match us with
  | [] => ret []
  | u :: us' =>
      do b <- patch dir u;
      do bs <- run_units dir us';
      ret (b :: bs)
  end.

(** The name under which [main] lists a unit. *)
Definition file_name (u : unit_id) : string :=
  match u with
  | CustomOps => "_custom_ops.py"
  | Mxfp4 => "mxfp4.py"
  | W8a8Utils => "w8a8_utils.py"
  | MatcherUtils => "matcher_utils.py"
  end.

(** What [main] does once [results] is complete: the summary and the
    status. *)
Definition conclude (results : list (string * bool)) : M Z :=
  run print EmptyString;
  run print (times "=" 60);
  run print "Summary:";
  run for_each results (fun entry => print (summary_line entry));
  let failed := map fst (List.filter (fun entry => negb (snd entry)) results) in
  match failed with
  | _ :: _ =>
      run print (nl +:+ "WARNING: Some patches failed: " +:+ join ", " failed);
      ret 1%Z
  | [] =>
      run print (nl +:+ "All patches applied successfully!");
      ret 0%Z
  end.

(** ** Carriage returns *)

Fixpoint has_cr (s : string) : bool :=
  match s with
  | EmptyString => false
  | String c s' => eqb_ascii c CR || has_cr s'
  end.

(** ** The environment *)

(** [os.environ.get('VLLM_DIR', '/build/vllm')]: the value of the variable
    when it is set, also when it is set to the empty string. *)
Definition vllm_dir (environ : gmap string string) : string :=
  match environ !! "VLLM_DIR" with
  | Some d => d
  | None => "/build/vllm"
  end.

(** ** A unit as a function of its target *)




(** The line [main] prints last. *)
Definition final_line (failed : list string) : string :=
  match failed with
  | _ :: _ => nl +:+ "WARNING: Some patches failed: " +:+ join ", " failed
  | [] => nl +:+ "All patches applied successfully!"
  end.

(** Neither string can begin inside the other, nor at its start. *)
Definition clean (old new : string) : bool :=
  no_suffix_agrees old new && no_suffix_agrees new old.

(** ** What a run does to a target *)



(** ** What a replacement does to a text *)

(** [old] does not begin inside [a] in [a +:+ old]: in a text
    [a +:+ old +:+ rest] the first occurrence of [old] is the one behind
    [a]. *)
Definition before_first (old a : string) : Prop :=
  forall a1 a2, a = a1 +:+ a2 -> a2 <> EmptyString -> startswith old (a2 +:+ old) = false.

(** [all_replaced old new s s']: [s'] is [s] with every occurrence of [old]
    replaced by [new], the occurrences taken from the left, each one
    beginning behind the end of the one before. *)
Inductive all_replaced (old new : string) : string -> string -> Prop :=
  | replaced_none s :
      contains old s = false -> all_replaced old new s s
  | replaced_first a rest rest' :
      before_first old a ->
      all_replaced old new rest rest' ->
      all_replaced old new (a +:+ old +:+ rest) (a +:+ new +:+ rest').

(** The text a rule looks for: the pattern itself, or for a [regex] rule
    the one string the pattern matches. *)
Definition literal (r : rule) : string :=
  if regex r
  then match re_literal (search r) with Some l => l | None => EmptyString end
  else search r.

(** ** Concrete worlds *)

Module Sample.

Definition dir : string := "/build/vllm".

(** *** Texts *)

Definition cap_line : string := "    if cap < (11, 0):" +:+ nl.

Definition patched_cap_line : string := "    if cap <= (12, 1):" +:+ nl.

Definition plain_line : string := "x = 1" +:+ nl.


Definition crlf_cap_line : string := "    if cap < (11, 0):" +:+ String CR nl.

Definition quant_line : string :=
  "QUANT_OP = torch.ops._C.static_scaled_fp8_quant.default" +:+ nl.

(** [ if hasattr(torch.ops._C, "static_scaled_fp8_quant") else None]. *)
Definition quant_guard : string :=
  " if hasattr(torch.ops._C, " +:+ dq +:+ "static_scaled_fp8_quant" +:+ dq +:+ ") else None".

Definition quant_line_wrapped : string :=
  "QUANT_OP = torch.ops._C.static_scaled_fp8_quant.default" +:+ quant_guard +:+ nl.

Definition quant_line_wrapped_twice : string :=
  "QUANT_OP = torch.ops._C.static_scaled_fp8_quant.default" +:+ quant_guard +:+ quant_guard
  +:+ nl.

(** A line on which [hasattr] stands before the pattern. *)
Definition guarded_line : string :=
  "Q = m.q if hasattr(m, 'q') else torch.ops._C.static_scaled_fp8_quant.default" +:+ nl.

(** *** Files *)

Definition file (content : string) : node := Node content true true.

(** A file that can be read and not written. *)
Definition read_only (content : string) : node := Node content true false.

(** A path that exists and cannot be opened: a directory, or a file
    without permissions. *)
Definition locked : node := Node EmptyString false false.

(** *** Worlds *)

Definition world_of (fs : gmap string node) : world := World fs [] [].

Definition empty_world : world := world_of ∅.

Definition only (u : unit_id) (n : node) : world :=
  world_of {[ target dir u := n ]}.

Definition all_four (a b c d : node) : world :=
  world_of (<[target dir CustomOps := a]>
           (<[target dir Mxfp4 := b]>
           (<[target dir W8a8Utils := c]>
           (<[target dir MatcherUtils := d]> ∅)))).

(** A checkout with the four files, none of them patched. *)
Definition fresh_checkout : world :=
  all_four (file (custom_ops_old +:+ nl +:+ custom_ops_old2 +:+ nl))
           (file cap_line)
           (file (w8a8_old +:+ nl +:+ w8a8_old2 +:+ nl))
           (file (matcher_old +:+ nl)).

(** The four files are there; one gets patched in part, one not at all. *)
Definition drifted_checkout : world :=
  all_four (file (custom_ops_old +:+ nl)) (file plain_line)
           (file (w8a8_old +:+ nl +:+ w8a8_old2 +:+ nl)) (file (matcher_old +:+ nl)).

(** Two targets are missing; of the other two, one holds no pattern and
    one holds the second pattern only. *)
Definition half_checkout : world :=
  world_of (<[target dir Mxfp4 := file plain_line]>
           (<[target dir W8a8Utils := file (w8a8_old2 +:+ nl)]> ∅)).


End Sample.

(** * Properties *)

(** ** The string functions on known values *)

Example replace_every_occurrence : replace "ab" "X" "abcabab" = "XcXX".
Proof. reflexivity. Qed.

Example replace_leftmost_first : replace "aa" "b" "aaa" = "ba".
Proof. reflexivity. Qed.

Example replace_empty_pattern : replace EmptyString "-" "abc" = "-a-b-c-".
Proof. reflexivity. Qed.

Example split_pieces : py_split "ab" "xabyabz" = Ok ["x"; "y"; "z"].
Proof. reflexivity. Qed.

Example split_without_separator : py_split "ab" "xyz" = Ok ["xyz"].
Proof. reflexivity. Qed.

Example split_at_the_end : py_split "ab" "xab" = Ok ["x"; EmptyString].
Proof. reflexivity. Qed.

Example split_empty_separator : py_split EmptyString "xyz" = Raise ValueError.
Proof. reflexivity. Qed.

Example index_from_the_end : py_index ["a"; "b"; "c"] (-2) = Ok "b".
Proof. reflexivity. Qed.

Example index_out_of_range : py_index ["a"; "b"; "c"] 3 = Raise IndexError.
Proof. reflexivity. Qed.

Example name_printed_by_the_loop :
  name_of "torch.ops._C.static_scaled_fp8_quant.default" = "static_scaled_fp8_quant".
Proof. reflexivity. Qed.

Example line_before_pattern :
  line_before "P" ("a = 1" +:+ nl +:+ "b = hasattr(P)") = Ok "b = hasattr(".
Proof. reflexivity. Qed.

Example pattern_literal : re_literal mxfp4_old_pattern = Some "< (11, 0)".
Proof. reflexivity. Qed.

Example pattern_outside_fragment : re_literal "a.*b" = None.
Proof. reflexivity. Qed.

Example join_default_dir :
  path_join "/build/vllm" "vllm/_custom_ops.py" = "/build/vllm/vllm/_custom_ops.py".
Proof. reflexivity. Qed.

Example join_after_slash : path_join "/build/vllm/" "a.py" = "/build/vllm/a.py".
Proof. reflexivity. Qed.

Example join_absolute : path_join "/build/vllm" "/etc/a.py" = "/etc/a.py".
Proof. reflexivity. Qed.

Example newlines_read :
  universal_newlines ("a" +:+ String CR nl +:+ "b" +:+ String CR "c") =
  "a" +:+ nl +:+ "b" +:+ nl +:+ "c".
Proof. reflexivity. Qed.

(** ** Strings *)

Section StringFacts.

Implicit Types (s t p old new : string) (c : ascii).

Lemma eqb_ascii_true a b : eqb_ascii a b = true <-> a = b.
Proof. unfold eqb_ascii. apply Ascii.eqb_eq. Qed.

Lemma append_cons c s t : String c s +:+ t = String c (s +:+ t).
Proof. reflexivity. Qed.

Lemma append_empty_r s : s +:+ EmptyString = s.
Proof.
  induction s as [|c s IH]; [reflexivity | now rewrite append_cons, IH].
Qed.

Lemma append_assoc s t p : (s +:+ t) +:+ p = s +:+ (t +:+ p).
Proof.
  induction s as [|c s IH]; [reflexivity | now rewrite !append_cons, IH].
Qed.

Lemma append_length s t :
  String.length (s +:+ t) = (String.length s + String.length t)%nat.
Proof.
  induction s as [|c s IH]; [reflexivity | rewrite append_cons; simpl; now rewrite IH].
Qed.

Lemma append_cancel_l s t p : s +:+ t = s +:+ p -> t = p.
Proof.
  induction s as [|c s IH]; intros H; [exact H|].
  rewrite !append_cons in H. injection H as H. auto.
Qed.

Lemma startswith_spec p s : startswith p s = true <-> exists r, s = p +:+ r.
Proof.
  revert s. induction p as [|a p IH]; intros s; simpl.
  - split; [intros _; now exists s | reflexivity].
  - destruct s as [|b s].
    + split; [discriminate | intros [r Hr]; discriminate].
    + rewrite andb_true_iff, eqb_ascii_true, IH. split.
      * intros [-> [r ->]]. now exists r.
      * intros [r Hr]. rewrite append_cons in Hr. injection Hr as -> ->.
        split; [reflexivity | now exists r].
Qed.

Lemma startswith_append p r : startswith p (p +:+ r) = true.
Proof. apply startswith_spec. now exists r. Qed.

Lemma startswith_refl p : startswith p p = true.
Proof. apply startswith_spec. exists EmptyString. now rewrite append_empty_r. Qed.

Lemma startswith_weaken p s t : startswith p s = true -> startswith p (s +:+ t) = true.
Proof.
  rewrite !startswith_spec. intros [r ->]. exists (r +:+ t). apply append_assoc.
Qed.

(** A prefix of [s +:+ t] lies inside [s] or reaches over all of it. *)
Lemma startswith_split p s t :
  startswith p (s +:+ t) = true ->
  startswith p s = true \/
  exists v, p = s +:+ v /\ v <> EmptyString /\ startswith v t = true.
Proof.
  revert s. induction p as [|a p IH]; intros s H.
  - now left.
  - destruct s as [|b s].
    + right. exists (String a p). repeat split; [discriminate | exact H].
    + rewrite append_cons in H. simpl in H. apply andb_true_iff in H as [Hab H].
      apply IH in H as [H | (v & -> & Hv & H)].
      * left. simpl. now rewrite Hab, H.
      * right. exists v. apply eqb_ascii_true in Hab as ->. now repeat split.
Qed.

Lemma agree_sym s t : agree s t = agree t s.
Proof. unfold agree. apply orb_comm. Qed.

Lemma startswith_agree p s t : startswith p (s +:+ t) = true -> agree p s = true.
Proof.
  intros H. unfold agree. apply orb_true_iff.
  apply startswith_split in H as [H | (v & -> & _ & _)]; [now left | right].
  apply startswith_append.
Qed.

Lemma contains_spec p s : contains p s = true <-> exists a b, s = a +:+ p +:+ b.
Proof.
  induction s as [|c s IH]; simpl.
  - rewrite startswith_spec. split.
    + intros [r Hr]. exists EmptyString, r. exact Hr.
    + intros (a & b & H). destruct a; [now exists b | discriminate].
  - rewrite orb_true_iff, startswith_spec, IH. split.
    + intros [[r Hr] | (a & b & ->)].
      * now exists EmptyString, r.
      * now exists (String c a), b.
    + intros (a & b & H). destruct a as [|c' a].
      * left. now exists b.
      * right. rewrite append_cons in H. injection H as -> ->. now exists a, b.
Qed.

Lemma contains_intro p a b : contains p (a +:+ p +:+ b) = true.
Proof. apply contains_spec. now exists a, b. Qed.

Lemma contains_trans p q s :
  contains p q = true -> contains q s = true -> contains p s = true.
Proof.
  rewrite !contains_spec. intros (a & b & ->) (a' & b' & ->).
  exists (a' +:+ a), (b +:+ b'). now rewrite !append_assoc.
Qed.

Lemma contains_append_l p s t : contains p t = true -> contains p (s +:+ t) = true.
Proof.
  rewrite !contains_spec. intros (a & b & ->). exists (s +:+ a), b.
  now rewrite append_assoc.
Qed.

Lemma contains_append_r p s t : contains p s = true -> contains p (s +:+ t) = true.
Proof.
  rewrite !contains_spec. intros (a & b & ->). exists a, (b +:+ t).
  now rewrite !append_assoc.
Qed.

Lemma contains_false_startswith p c s :
  contains p (String c s) = false ->
  startswith p (String c s) = false /\ contains p s = false.
Proof. simpl contains. intros H. now apply orb_false_iff in H. Qed.

End StringFacts.

(** ** [str.replace] *)

Section ReplaceFacts.

Variables old new : string.
Hypothesis old_nonempty : old <> EmptyString.

Implicit Types (s t x y m : string) (c : ascii).

Lemma replace_scan_skip u r :
  replace_scan old new (String.length u) (u +:+ r) = replace_scan old new 0 r.
Proof. induction u as [|c u IH]; [reflexivity | exact IH]. Qed.

Lemma old_cons : exists a old', old = String a old'.
Proof. destruct old as [|a old']; [congruence | now exists a, old']. Qed.

Lemma replace_unfold s : replace old new s = replace_scan old new 0 s.
Proof. unfold replace. destruct old; [congruence | reflexivity]. Qed.

Lemma replace_empty : replace old new EmptyString = EmptyString.
Proof. now rewrite replace_unfold. Qed.

(** The scan at an occurrence: the occurrence is replaced and the scan goes
    on behind it. *)
Lemma replace_hit r : replace old new (old +:+ r) = new +:+ replace old new r.
Proof.
  rewrite !replace_unfold. destruct old_cons as (a & old' & Ho).
  replace (old +:+ r) with (String a (old' +:+ r)) by now rewrite Ho.
  cbn [replace_scan]. rewrite <- append_cons, <- Ho, startswith_append.
  replace (String.length old - 1)%nat with (String.length old')
    by (rewrite Ho; simpl; lia).
  now rewrite replace_scan_skip.
Qed.

(** The scan elsewhere: the character is kept. *)
Lemma replace_miss c s :
  startswith old (String c s) = false ->
  replace old new (String c s) = String c (replace old new s).
Proof.
  intros H. rewrite !replace_unfold. cbn [replace_scan]. now rewrite H.
Qed.

Lemma replace_absent s : contains old s = false -> replace old new s = s.
Proof.
  induction s as [|c s IH]; intros H; [apply replace_empty|].
  apply contains_false_startswith in H as [H1 H2].
  now rewrite replace_miss, IH.
Qed.

Lemma replace_present s :
  contains old s = true -> contains new (replace old new s) = true.
Proof.
  induction s as [|c s IH]; intros H.
  - simpl in H. apply startswith_spec in H as [r Hr]. destruct old; [congruence | discriminate].
  - simpl in H. destruct (startswith old (String c s)) eqn:E.
    + apply startswith_spec in E as [r ->]. rewrite replace_hit.
      apply (contains_intro new EmptyString).
    + rewrite replace_miss by exact E. simpl. rewrite IH by exact H.
      apply orb_true_r.
Qed.

Lemma no_straddle_tail u x y : no_straddle old (u +:+ x) y -> no_straddle old x y.
Proof.
  intros H u' v t -> Hv Ho Ht. apply (H (u +:+ u') v t); auto.
  now rewrite append_assoc.
Qed.

Lemma replace_app_bounded n :
  forall x y, (String.length x <= n)%nat -> no_straddle old x y ->
    replace old new (x +:+ y) = replace old new x +:+ replace old new y.
Proof.
  induction n as [|n IH]; intros x y Hlen Hns.
  - destruct x; [now rewrite replace_empty | simpl in Hlen; lia].
  - destruct x as [|c x]; [now rewrite replace_empty|].
    destruct (startswith old (String c x +:+ y)) eqn:E.
    + apply startswith_split in E as [E | (v & Hv & Hne & Hvy)].
      * apply startswith_spec in E as [r Hr]. rewrite Hr in *.
        rewrite append_assoc, !replace_hit, append_assoc. f_equal.
        apply IH; [|now apply no_straddle_tail in Hns].
        rewrite append_length in Hlen.
        destruct old; [congruence | simpl in Hlen; lia].
      * rewrite (Hns EmptyString (String c x) v) in Hvy; auto; discriminate.
    + assert (E' : startswith old (String c x) = false).
      { destruct (startswith old (String c x)) eqn:E'; [|reflexivity].
        apply (startswith_weaken _ _ y) in E'. congruence. }
      rewrite append_cons in *. rewrite !replace_miss by assumption.
      rewrite append_cons. f_equal. apply IH; [simpl in Hlen; lia|].
      now apply (no_straddle_tail (String c EmptyString)).
Qed.

(** Replacement goes through a place that no occurrence crosses. *)
Lemma replace_app x y :
  no_straddle old x y ->
  replace old new (x +:+ y) = replace old new x +:+ replace old new y.
Proof. now apply (replace_app_bounded (String.length x)). Qed.

Lemma no_suffix_agrees_spec s t :
  no_suffix_agrees s t = true ->
  forall v w, s = v +:+ w -> w <> EmptyString -> agree w t = false.
Proof.
  induction s as [|c s IH]; intros H v w Hs Hw.
  - destruct v; [change (EmptyString = w) in Hs; congruence | discriminate].
  - simpl in H. apply andb_true_iff in H as [H1 H2].
    destruct v as [|c' v].
    + change (String c s = w) in Hs. subst w. now apply negb_true_iff.
    + rewrite append_cons in Hs. injection Hs as -> ->. now apply (IH H2 v).
Qed.

Lemma no_suffix_agrees_tail c s t :
  no_suffix_agrees (String c s) t = true -> no_suffix_agrees s t = true.
Proof. simpl. intros H. now apply andb_true_iff in H. Qed.

(** An occurrence of [old] cannot begin before a text [m] and reach into
    it, when no proper suffix of [old] agrees with [m]. *)
Lemma no_straddle_before a old' m x b :
  old = String a old' -> no_suffix_agrees old' m = true -> no_straddle old x (m +:+ b).
Proof.
  intros Ho Hm u v t _ Hv Hvt Ht.
  destruct v as [|a' v]; [congruence|].
  rewrite Ho, append_cons in Hvt. injection Hvt as _ Hvt.
  destruct (startswith t (m +:+ b)) eqn:E; [|reflexivity].
  apply startswith_agree in E.
  now rewrite (no_suffix_agrees_spec _ _ Hm v t) in E.
Qed.

(** A text in which [old] cannot begin is passed unchanged. *)
Lemma replace_keeps_prefix m b :
  no_suffix_agrees m old = true ->
  replace old new (m +:+ b) = m +:+ replace old new b.
Proof.
  induction m as [|c m IH]; intros H; [reflexivity|].
  rewrite !append_cons. rewrite replace_miss.
  - f_equal. apply IH. now apply no_suffix_agrees_tail in H.
  - destruct (startswith old (String c (m +:+ b))) eqn:E; [|reflexivity].
    rewrite <- append_cons in E. apply startswith_agree in E.
    rewrite agree_sym in E.
    now rewrite (no_suffix_agrees_spec _ _ H EmptyString (String c m)) in E.
Qed.

(** A text that no occurrence of [old] can touch survives the
    replacement. *)
Lemma replace_keeps m s :
  apart old m = true -> contains m s = true ->
  contains m (replace old new s) = true.
Proof.
  destruct old_cons as (a & old' & Ho). intros H Hs.
  unfold apart in H. rewrite Ho in H.
  apply andb_true_iff in H as [H1 H2]. rewrite <- Ho in H1.
  apply contains_spec in Hs as (x & y & ->).
  rewrite replace_app by (eapply no_straddle_before; eauto).
  rewrite replace_keeps_prefix by exact H1.
  apply contains_intro.
Qed.

End ReplaceFacts.

(** ** Running the monad *)

Arguments path_join : simpl never.

Section MonadFacts.

Context {A B : Type}.
Implicit Types (w : world) (k : A -> M B).

Lemma run_ret (a : A) k w : bind (ret a) k w = k a w.
Proof. reflexivity. Qed.

Lemma run_lift_ok (a : A) k w : bind (lift (Ok a)) k w = k a w.
Proof. reflexivity. Qed.

Lemma run_if (b : bool) (m1 m2 : M A) k w :
  bind (if b then m1 else m2) k w = if b then bind m1 k w else bind m2 k w.
Proof. now destruct b. Qed.

Lemma run_bind {C : Type} (m : M C) (f : C -> M A) k w :
  bind (bind m f) k w = bind m (fun c => bind (f c) k) w.
Proof. unfold bind. destruct (m w) as [[c|e] w']; reflexivity. Qed.

End MonadFacts.

Section ActionFacts.

Context {B : Type}.
Implicit Types (w : world) (p : string).

Lemma run_print line (k : unit -> M B) w : bind (print line) k w = k tt (emit line w).
Proof. reflexivity. Qed.

Lemma run_exists p (k : bool -> M B) w :
  bind (path_exists p) k w =
  k (match files w !! p with Some _ => true | None => false end) (record (OpExists p) w).
Proof. reflexivity. Qed.

Lemma run_read p n (k : string -> M B) w :
  files w !! p = Some n -> readable n = true ->
  bind (read_text p) k w = k (universal_newlines (data n)) (record (OpRead p) w).
Proof. intros Hf Hr. unfold bind, read_text. now rewrite Hf, Hr. Qed.

Lemma run_read_fail p n (k : string -> M B) w :
  files w !! p = Some n -> readable n = false ->
  bind (read_text p) k w = (Raise (OSError p), w).
Proof. intros Hf Hr. unfold bind, read_text. now rewrite Hf, Hr. Qed.

Lemma run_write p n content (k : unit -> M B) w :
  files w !! p = Some n -> writable n = true ->
  bind (write_text p content) k w =
  k tt (record (OpWrite p content) (store p (Node content (readable n) (writable n)) w)).
Proof. intros Hf Hw. unfold bind, write_text. now rewrite Hf, Hw. Qed.

Lemma run_write_fail p n content (k : unit -> M B) w :
  files w !! p = Some n -> writable n = false ->
  bind (write_text p content) k w = (Raise (OSError p), w).
Proof. intros Hf Hw. unfold bind, write_text. now rewrite Hf, Hw. Qed.

End ActionFacts.

Ltac mstep :=
  first [ rewrite run_bind | rewrite run_if | rewrite run_print | rewrite run_ret
        | rewrite run_lift_ok | rewrite run_exists ]; cbv beta iota.

Ltac msteps := cbv beta iota zeta; repeat mstep.

(** ** [split] and indexing never fail where the script uses them *)

Lemma split_scan_nonempty sep s : forall k acc, split_scan sep k acc s <> [].
Proof.
  induction s as [|c s IH]; intros k acc; simpl; [discriminate|].
  destruct k; [|apply IH]. destruct (startswith sep (String c s)); [discriminate | apply IH].
Qed.

Lemma py_index_first {A : Type} (l : list A) : l <> [] -> exists x, py_index l 0 = Ok x.
Proof.
  destruct l as [|x l]; [congruence|]. intros _. exists x.
  unfold py_index. cbn [length]. change (0 <? 0)%Z with false. cbv iota.
  destruct (Z.ltb_spec 0 (Z.of_nat (S (length l)))); [reflexivity | lia].
Qed.

Lemma py_index_last {A : Type} (l : list A) : l <> [] -> exists x, py_index l (-1) = Ok x.
Proof.
  intros Hl. unfold py_index. change (-1 <? 0)%Z with true. cbv iota.
  assert (Hn : (0 < length l)%nat) by (destruct l; [congruence | simpl; lia]).
  destruct (Z.leb_spec 0 (Z.of_nat (length l) + -1)); [|lia].
  destruct (Z.ltb_spec (Z.of_nat (length l) + -1) (Z.of_nat (length l))); [|lia].
  cbn [andb].
  destruct (lookup_lt_is_Some_2 l (Z.to_nat (Z.of_nat (length l) + -1))) as [x Hx]; [lia|].
  exists x. now rewrite Hx.
Qed.

Lemma line_before_total old_pat content :
  old_pat <> EmptyString -> line_before old_pat content = Ok (line_of old_pat content).
Proof.
  intros Hne. unfold line_of.
  enough (exists l, line_before old_pat content = Ok l) as [l ->] by reflexivity.
  unfold line_before, py_split, split. destruct old_pat as [|a old']; [congruence|].
  cbn [result_bind].
  destruct (py_index_first _ (split_scan_nonempty (String a old') content 0 EmptyString))
    as [before ->].
  cbn [result_bind nl].
  destruct (py_index_last _ (split_scan_nonempty nl before 0 EmptyString)) as [l ->].
  now exists l.
Qed.

(** The loop body of [patch_matcher_utils]: the rule is applied when its
    pattern is found and no [hasattr] stands before it on its line. *)
Lemma run_fp8_body {B : Type} p c b old_pat new_pat parts name (k : string * bool -> M B) w :
  old_pat <> EmptyString ->
  py_split "." old_pat = Ok parts -> py_index parts (-2) = Ok name ->
  bind (fp8_body p (c, b) (old_pat, new_pat)) k w =
  if applies (Rule old_pat new_pat false true) c
  then k (replace old_pat new_pat c, true) (emit ("PATCHED: " +:+ name +:+ " in " +:+ p) w)
  else k (c, b) w.
Proof.
  intros Hne Hs Hi. unfold fp8_body, applies, found. cbn [regex guarded search].
  destruct (contains old_pat c); cbn [andb]; [|reflexivity].
  rewrite line_before_total by exact Hne. rewrite run_bind, run_lift_ok.
  destruct (contains "hasattr" (line_of old_pat c)); cbn [negb]; [reflexivity|].
  cbv zeta. rewrite Hs, run_bind, run_lift_ok, Hi, run_bind, run_lift_ok.
  now rewrite run_bind, run_print.
Qed.

(** ** Rules *)

Lemma applies_plain o r c : applies (Rule o r false false) c = contains o c.
Proof. unfold applies, found. cbn [regex guarded search]. apply andb_true_r. Qed.

Lemma applies_regex o r c : applies (Rule o r true false) c = re_search o c.
Proof. unfold applies, found. cbn [regex guarded search]. apply andb_true_r. Qed.

Lemma substitute_plain o r g c : substitute (Rule o r false g) c = replace o r c.
Proof. reflexivity. Qed.

Lemma substitute_regex o r g c : substitute (Rule o r true g) c = re_sub o r c.
Proof. reflexivity. Qed.

(** ** The loop of [patch_matcher_utils] *)

Lemma emits_nil w : emits [] w = w.
Proof. destruct w. unfold emits. cbn. now rewrite app_nil_r. Qed.

Lemma emits_emit line lines w : emits lines (emit line w) = emits (line :: lines) w.
Proof. unfold emits, emit. cbn. now rewrite <- app_assoc. Qed.

Lemma fp8_patterns_ok : Forall fp8_entry_ok fp8_patterns.
Proof.
  unfold fp8_patterns.
  repeat (constructor; [split; [discriminate | eexists; split; vm_compute; reflexivity]|]).
  constructor.
Qed.

Lemma run_rules_cons r rs c :
  run_rules (r :: rs) c =
  (fst (run_rules rs (step c r)),
   if applies r c then S (snd (run_rules rs (step c r))) else snd (run_rules rs (step c r))).
Proof. cbn [run_rules]. now destruct (run_rules rs (step c r)). Qed.

Lemma run_fp8_loop {B : Type} p entries :
  Forall fp8_entry_ok entries ->
  forall c b (k : string * bool -> M B) w,
    bind (for_fold entries (fp8_body p) (c, b)) k w =
    k (fst (run_rules (map fp8_rule entries) c),
       b || negb (snd (run_rules (map fp8_rule entries) c) =? 0)%nat)
      (emits (fp8_lines p entries c) w).
Proof.
  induction 1 as [|[o r] entries [Hne (parts & Hs & Hi)] _ IH]; intros c b k w.
  - cbn. now rewrite orb_false_r, emits_nil.
  - cbn [for_fold map fp8_lines]. rewrite run_bind, run_rules_cons.
    erewrite run_fp8_body by eassumption. unfold step.
    change (fp8_rule (o, r)) with (Rule o r false true). cbn [fst snd].
    destruct (applies (Rule o r false true) c).
    + rewrite IH, emits_emit, substitute_plain. now rewrite orb_true_r.
    + now rewrite IH.
Qed.

Lemma fp8_lines_count p entries :
  forall c,
    length (List.filter (startswith "PATCHED: ") (fp8_lines p entries c)) =
    snd (run_rules (map fp8_rule entries) c).
Proof.
  induction entries as [|[o r] entries IH]; intros c; [reflexivity|].
  cbn [map fp8_lines]. rewrite run_rules_cons. unfold step. cbn [snd].
  change (fp8_rule (o, r)) with (Rule o r false true). cbn [fst snd].
  destruct (applies (Rule o r false true) c); [|apply IH].
  cbn [List.filter]. rewrite startswith_append. cbn [length].
  now rewrite IH, substitute_plain.
Qed.

Lemma fp8_lines_no_skip p entries :
  forall c, existsb (startswith "SKIP: ") (fp8_lines p entries c) = false.
Proof.
  induction entries as [|[o r] entries IH]; intros c; [reflexivity|].
  cbn [fp8_lines]. destruct (applies _ c); [|apply IH].
  cbn [existsb]. now rewrite IH.
Qed.

(** ** The four functions, case by case *)

Section UnitFacts.

Variable dir : string.
Implicit Types (w : world) (n : node) (u : unit_id).

Ltac open_unit :=
  match goal with
  | |- context [patch dir ?u _] =>
      unfold patch, patch_custom_ops, patch_mxfp4, patch_w8a8_utils, patch_matcher_utils;
      let r := eval cbv [target_rel] in (target_rel u) in
      change (path_join dir r) with (target dir u);
      set (p := target dir u) in *;
      msteps
  end.

Ltac flatten_world :=
  unfold ret, patched_world, read_world, checked_world, record, store, emit, emits;
  cbn [files stdout ops]; rewrite <- ?app_assoc.

Ltac open_rules :=
  unfold rewritten, applied_count, rules;
  rewrite ?run_rules_cons; unfold step;
  rewrite ?applies_plain, ?applies_regex, ?substitute_plain, ?substitute_regex;
  cbn [run_rules fst snd].

Ltac decide_rules :=
  repeat (first
    [ mstep
    | progress cbn [negb]
    | rewrite run_fp8_loop by apply fp8_patterns_ok
    | match goal with
      | |- context [if contains ?o ?c then _ else _] => destruct (contains o c) eqn:?
      | |- context [if re_search ?o ?c then _ else _] => destruct (re_search o c) eqn:?
      | |- context [if negb ?b then _ else _] => destruct b eqn:?
      end ]).

Lemma patch_missing u w :
  files w !! target dir u = None ->
  patch dir u w =
    (Ok false, checked_world (target dir u) [missing_line (target dir u)] w).
Proof.
  intros Hf. destruct u; open_unit; rewrite Hf; cbn [negb]; msteps;
    flatten_world; reflexivity.
Qed.

Lemma patch_unreadable u w n :
  files w !! target dir u = Some n -> readable n = false ->
  patch dir u w = (Raise (OSError (target dir u)), record (OpExists (target dir u)) w).
Proof.
  intros Hf Hr. destruct u; open_unit; rewrite Hf; cbn [negb]; msteps;
    (erewrite run_read_fail; [reflexivity | exact Hf | exact Hr]).
Qed.

Lemma patch_skip u w n :
  files w !! target dir u = Some n -> readable n = true ->
  already_applied u (universal_newlines (data n)) = true ->
  patch dir u w =
    (Ok true, read_world (target dir u) [skip_line (target dir u)] w).
Proof.
  intros Hf Hr Ha.
  destruct u; cbn [already_applied] in Ha; open_unit; rewrite Hf; cbn [negb]; msteps;
    (erewrite run_read; [|exact Hf|exact Hr]); rewrite Ha; msteps;
    flatten_world; reflexivity.
Qed.

Lemma patch_apply u w n :
  files w !! target dir u = Some n -> readable n = true ->
  already_applied u (universal_newlines (data n)) = false -> writable n = true ->
  exists lines,
    patch dir u w =
      (Ok true,
       patched_world (target dir u) n (rewritten u (universal_newlines (data n))) lines w) /\
    classify (length (rules u)) true lines =
      outcome_of_count (applied_count u (universal_newlines (data n))) (length (rules u)).
Proof.
  intros Hf Hr Ha Hw.
  destruct u; cbn [already_applied] in Ha; open_unit; rewrite Hf; cbn [negb]; msteps;
    (erewrite run_read; [|exact Hf|exact Hr]); rewrite Ha; msteps;
    set (c := universal_newlines (data n)) in *; open_rules.
  all: decide_rules.
  all: (erewrite run_write; [|exact Hf|exact Hw]); flatten_world.
  all: eexists; split; [reflexivity|].
  all: try reflexivity.
  all: unfold classify; cbn [negb];
    rewrite ?existsb_app, ?List.filter_app, ?List.length_app,
      ?fp8_lines_no_skip, ?fp8_lines_count;
    cbn [existsb List.filter];
    change (startswith "SKIP: " ("PATCHED: SILU_MUL_OP in " +:+ p)) with false;
    change (startswith "SKIP: " ("WARNING: No patterns found to patch in " +:+ p))
      with false;
    change (startswith "PATCHED: " ("PATCHED: SILU_MUL_OP in " +:+ p)) with true;
    change (startswith "PATCHED: " ("WARNING: No patterns found to patch in " +:+ p))
      with false;
    cbn [orb length Nat.add]; rewrite ?Nat.add_0_r; reflexivity.
Qed.

Lemma patch_unwritable u w n :
  files w !! target dir u = Some n -> readable n = true ->
  already_applied u (universal_newlines (data n)) = false -> writable n = false ->
  exists lines,
    patch dir u w = (Raise (OSError (target dir u)), read_world (target dir u) lines w).
Proof.
  intros Hf Hr Ha Hw.
  destruct u; cbn [already_applied] in Ha; open_unit; rewrite Hf; cbn [negb]; msteps;
    (erewrite run_read; [|exact Hf|exact Hr]); rewrite Ha; msteps.
  all: decide_rules.
  all: (erewrite run_write_fail; [|exact Hf|exact Hw]); flatten_world.
  all: eexists; reflexivity.
Qed.

(** The lines printed before a write that fails are the lines of a run
    that succeeds. *)
Lemma patch_unwritable_lines u w n :
  files w !! target dir u = Some n -> readable n = true ->
  already_applied u (universal_newlines (data n)) = false -> writable n = false ->
  exists lines,
    patch dir u w = (Raise (OSError (target dir u)), read_world (target dir u) lines w) /\
    classify (length (rules u)) true lines =
      outcome_of_count (applied_count u (universal_newlines (data n))) (length (rules u)).
Proof.
  intros Hf Hr Ha Hw.
  destruct u; cbn [already_applied] in Ha; open_unit; rewrite Hf; cbn [negb]; msteps;
    (erewrite run_read; [|exact Hf|exact Hr]); rewrite Ha; msteps;
    set (c := universal_newlines (data n)) in *; open_rules.
  all: decide_rules.
  all: (erewrite run_write_fail; [|exact Hf|exact Hw]); flatten_world.
  all: eexists; split; [reflexivity|].
  all: try reflexivity.
  all: unfold classify; cbn [negb];
    rewrite ?existsb_app, ?List.filter_app, ?List.length_app,
      ?fp8_lines_no_skip, ?fp8_lines_count;
    cbn [existsb List.filter];
    change (startswith "SKIP: " ("PATCHED: SILU_MUL_OP in " +:+ p)) with false;
    change (startswith "SKIP: " ("WARNING: No patterns found to patch in " +:+ p))
      with false;
    change (startswith "PATCHED: " ("PATCHED: SILU_MUL_OP in " +:+ p)) with true;
    change (startswith "PATCHED: " ("WARNING: No patterns found to patch in " +:+ p))
      with false;
    cbn [orb length Nat.add]; rewrite ?Nat.add_0_r; reflexivity.
Qed.

End UnitFacts.

(** ** Every run of a unit is one of the five cases *)

Lemma patch_run dir u w : exists r w', patch dir u w = (r, w') /\ unit_run dir u w r w'.
Proof.
  destruct (files w !! target dir u) as [n|] eqn:Hf.
  2: { eexists _, _. split; [exact (patch_missing dir u w Hf)|]. now constructor. }
  destruct (readable n) eqn:Hr.
  2: { eexists _, _. split; [exact (patch_unreadable dir u w n Hf Hr)|].
       now apply (RunUnreadable dir u w n). }
  destruct (already_applied u (universal_newlines (data n))) eqn:Ha.
  { eexists _, _. split; [exact (patch_skip dir u w n Hf Hr Ha)|].
    now apply (RunSkip dir u w n). }
  destruct (writable n) eqn:Hw.
  - destruct (patch_apply dir u w n Hf Hr Ha Hw) as (lines & Hp & Hc).
    eexists _, _. split; [exact Hp|]. now apply RunApply.
  - destruct (patch_unwritable dir u w n Hf Hr Ha Hw) as (lines & Hp).
    eexists _, _. split; [exact Hp|]. now apply (RunUnwritable dir u w n).
Qed.

Lemma patch_run_inv dir u w r w' : patch dir u w = (r, w') -> unit_run dir u w r w'.
Proof.
  intros H. destruct (patch_run dir u w) as (r0 & w0 & Hp & Hu). congruence.
Qed.

(** ** What a unit leaves alone *)

Section FrameFacts.

Variable dir : string.
Implicit Types (w : world) (u : unit_id) (q : string).

Lemma unit_run_stdout u w r w' :
  unit_run dir u w r w' -> exists lines, stdout w' = stdout w ++ lines.
Proof.
  destruct 1; cbn [stdout checked_world read_world patched_world record]; eauto.
  exists []. now rewrite app_nil_r.
Qed.

Lemma unit_run_ops u w r w' :
  unit_run dir u w r w' ->
  exists os, ops w' = ops w ++ os /\ Forall (fun o => op_path o = target dir u) os.
Proof.
  destruct 1; cbn [ops checked_world read_world patched_world record];
    eexists; (split; [reflexivity|]); repeat constructor.
Qed.

Lemma unit_run_other u w r w' q :
  unit_run dir u w r w' -> q <> target dir u -> files w' !! q = files w !! q.
Proof.
  destruct 1; cbn [files checked_world read_world patched_world record]; intros Hq;
    try reflexivity.
  now rewrite lookup_insert_ne.
Qed.

Lemma same_shape_refl w : same_shape w w.
Proof. intros q. now destruct (files w !! q). Qed.

Lemma same_shape_trans w1 w2 w3 : same_shape w1 w2 -> same_shape w2 w3 -> same_shape w1 w3.
Proof.
  intros H12 H23 q. specialize (H12 q). specialize (H23 q).
  destruct (files w1 !! q), (files w2 !! q), (files w3 !! q); try tauto.
  destruct H12, H23. split; congruence.
Qed.

Lemma same_shape_files w w' : files w' = files w -> same_shape w w'.
Proof. intros H q. rewrite H. now destruct (files w !! q). Qed.

Lemma unit_run_shape u w r w' : unit_run dir u w r w' -> same_shape w w'.
Proof.
  destruct 1; try (now apply same_shape_files).
  intros q. cbn [files patched_world].
  destruct (decide (q = target dir u)) as [->|Hq].
  - rewrite lookup_insert_eq. match goal with H : files w !! _ = Some _ |- _ => rewrite H end.
    now split.
  - rewrite lookup_insert_ne by congruence. now destruct (files w !! q).
Qed.

Lemma same_shape_present w w' q : same_shape w w' -> present w' q = present w q.
Proof.
  intros H. specialize (H q). unfold present.
  now destruct (files w !! q), (files w' !! q).
Qed.

Lemma same_shape_io_ok w w' : same_shape w w' -> io_ok dir w -> io_ok dir w'.
Proof.
  intros H Hio u n' Hn'. specialize (H (target dir u)). rewrite Hn' in H.
  destruct (files w !! target dir u) as [n|] eqn:Hn; [|contradiction].
  destruct H as [<- <-]. now apply (Hio u).
Qed.

(** With files that open, a unit returns, and it returns [False] exactly
    when its target is missing. *)
Lemma unit_run_io_ok u w r w' :
  io_ok dir w -> unit_run dir u w r w' -> r = Ok (present w (target dir u)).
Proof.
  intros Hio. unfold present.
  destruct 1 as [Hf|n Hf Hr|n Hf Hr Ha|n lines Hf Hr Ha Hw Hc|n lines Hf Hr Ha Hw];
    rewrite Hf; try reflexivity; destruct (Hio u n Hf); congruence.
Qed.

End FrameFacts.

(** ** [main]: the units in sequence, then the summary *)

Section MainFacts.

Variable dir : string.
Implicit Types (w : world) (u : unit_id) (us : list unit_id).

Lemma bind_ext {A B : Type} (m : M A) (k1 k2 : A -> M B) w :
  (forall a w', k1 a w' = k2 a w') -> bind m k1 w = bind m k2 w.
Proof. intros H. unfold bind. destruct (m w) as [[a|e] w']; [apply H | reflexivity]. Qed.

Lemma bind_ok {A B : Type} (m : M A) (k : A -> M B) w a w' :
  m w = (Ok a, w') -> bind m k w = k a w'.
Proof. intros H. unfold bind. now rewrite H. Qed.


Lemma banner_run w : exists w0,
  banner dir w = (Ok tt, w0) /\ files w0 = files w /\ ops w0 = ops w /\
  exists lines, stdout w0 = stdout w ++ lines.
Proof.
  eexists. split; [reflexivity|]. cbn. repeat split. eexists.
  now rewrite <- !app_assoc.
Qed.

Lemma main_eq w :
  main dir w =
  (run banner dir;
   do bs <- run_units dir units;
   conclude (combine (map file_name units) bs)) w.
Proof.
  unfold main, banner, units. cbn [run_units]. msteps.
  apply bind_ext; intros r1 w1. msteps.
  apply bind_ext; intros r2 w2. msteps.
  apply bind_ext; intros r3 w3. msteps.
  apply bind_ext; intros r4 w4. msteps.
  reflexivity.
Qed.

Lemma for_each_print {A : Type} (f : A -> string) (l : list A) :
  forall w, for_each l (fun e => print (f e)) w = (Ok tt, emits (map f l) w).
Proof.
  induction l as [|x l IH]; intros w.
  - cbn. now rewrite emits_nil.
  - cbn [for_each map]. rewrite run_print, IH. now rewrite emits_emit.
Qed.

Lemma no_failed_iff (results : list (string * bool)) :
  map fst (List.filter (fun entry => negb (snd entry)) results) = [] <->
  forallb snd results = true.
Proof.
  induction results as [|[name b] results IH]; [easy|].
  cbn [List.filter forallb snd]. destruct b; cbn [negb andb]; [exact IH|].
  split; discriminate.
Qed.

(** The summary prints, touches no file, and gives 0 exactly when every
    entry of [results] is [True]. *)
Lemma conclude_run results w : exists w',
  conclude results w = (Ok (if forallb snd results then 0 else 1)%Z, w') /\
  files w' = files w /\ ops w' = ops w.
Proof.
  unfold conclude. msteps.
  erewrite bind_ok by apply for_each_print.
  destruct (map fst (List.filter _ results)) as [|name failed] eqn:E.
  - apply no_failed_iff in E. rewrite E. msteps. eexists. now repeat split.
  - destruct (forallb snd results) eqn:E'.
    + apply no_failed_iff in E'. congruence.
    + msteps. eexists. now repeat split.
Qed.

(** With files that open, every unit returns, and returns whether its
    target exists. *)
Lemma run_units_io_ok us :
  forall w, io_ok dir w ->
    exists w', run_units dir us w = (Ok (map (fun u => present w (target dir u)) us), w') /\
               same_shape w w'.
Proof.
  induction us as [|u us IH]; intros w Hio.
  - exists w. split; [reflexivity | apply same_shape_refl].
  - destruct (patch_run dir u w) as (r & w1 & Hp & Hu).
    pose proof (unit_run_io_ok dir u w r w1 Hio Hu) as ->.
    pose proof (unit_run_shape dir u w _ w1 Hu) as Hs.
    destruct (IH w1 (same_shape_io_ok dir w w1 Hs Hio)) as (w2 & Hr & Hs2).
    exists w2. split; [|now apply (same_shape_trans w w1 w2)].
    cbn [run_units map]. erewrite bind_ok by exact Hp.
    erewrite bind_ok by exact Hr. unfold ret. do 3 f_equal.
    apply map_ext. intros v. now apply same_shape_present.
Qed.

End MainFacts.

(** ** Carriage returns and text mode *)

Lemma has_cr_universal_aux s :
  has_cr (universal_newlines s) = false /\
  forall c, has_cr (universal_newlines (String c s)) = false.
Proof.
  induction s as [|d s [IH1 IH2]].
  - split; [reflexivity|]. intros c. cbn [universal_newlines].
    destruct (eqb_ascii c CR) eqn:E; cbn [has_cr]; [reflexivity | now rewrite E].
  - split; [apply IH2|]. intros c. cbn [universal_newlines].
    destruct (eqb_ascii c CR) eqn:E.
    + destruct (eqb_ascii d LF); cbn [has_cr]; [exact IH1 | apply IH2].
    + cbn [has_cr]. rewrite E. apply IH2.
Qed.

(** What [read] returns holds no carriage return. *)
Lemma has_cr_universal s : has_cr (universal_newlines s) = false.
Proof. apply has_cr_universal_aux. Qed.

(** A text without carriage returns is read as it is stored. *)
Lemma universal_newlines_id s : has_cr s = false -> universal_newlines s = s.
Proof.
  induction s as [|c s IH]; [reflexivity|]. cbn [has_cr universal_newlines].
  intros H. apply orb_false_iff in H as [-> H]. now rewrite IH.
Qed.

Lemma has_cr_append s t : has_cr (s +:+ t) = has_cr s || has_cr t.
Proof.
  induction s as [|c s IH]; [reflexivity|].
  rewrite append_cons. cbn [has_cr]. now rewrite IH, orb_assoc.
Qed.

Lemma has_cr_replace_scan old new :
  has_cr new = false ->
  forall s k, has_cr s = false -> has_cr (replace_scan old new k s) = false.
Proof.
  intros Hn. induction s as [|c s IH]; intros k Hs; [reflexivity|].
  cbn [has_cr] in Hs. apply orb_false_iff in Hs as [Hc Hs].
  cbn [replace_scan]. destruct k; [|now apply IH].
  destruct (startswith old (String c s)).
  - rewrite has_cr_append, Hn. now apply IH.
  - cbn [has_cr]. rewrite Hc. now apply IH.
Qed.

Lemma has_cr_intersperse new s :
  has_cr new = false -> has_cr s = false -> has_cr (intersperse new s) = false.
Proof.
  intros Hn. induction s as [|c s IH]; intros Hs; [exact Hn|].
  cbn [has_cr] in Hs. apply orb_false_iff in Hs as [Hc Hs].
  cbn [intersperse]. rewrite has_cr_append, Hn. cbn [has_cr orb].
  rewrite Hc. now apply IH.
Qed.

Lemma has_cr_replace old new s :
  has_cr new = false -> has_cr s = false -> has_cr (replace old new s) = false.
Proof.
  intros Hn Hs. unfold replace. destruct old.
  - now apply has_cr_intersperse.
  - now apply has_cr_replace_scan.
Qed.

Lemma has_cr_step r c :
  has_cr (replacement r) = false -> has_cr c = false -> has_cr (step c r) = false.
Proof.
  intros Hr Hc. unfold step. destruct (applies r c); [|exact Hc].
  unfold substitute, re_sub, re_template. destruct (regex r).
  - destruct (re_literal (search r)); [|exact Hc].
    destruct (contains _ (replacement r)); [exact Hc | now apply has_cr_replace].
  - now apply has_cr_replace.
Qed.

Lemma has_cr_run_rules rs :
  Forall (fun r => has_cr (replacement r) = false) rs ->
  forall c, has_cr c = false -> has_cr (fst (run_rules rs c)) = false.
Proof.
  induction 1 as [|r rs Hr _ IH]; intros c Hc; [exact Hc|].
  rewrite run_rules_cons. cbn [fst]. apply IH. now apply has_cr_step.
Qed.

Lemma rules_without_cr u : Forall (fun r => has_cr (replacement r) = false) (rules u).
Proof. destruct u; repeat constructor. Qed.

(** What a unit writes is read back unchanged. *)
Lemma rewritten_reads_back u s :
  universal_newlines (rewritten u (universal_newlines s)) = rewritten u (universal_newlines s).
Proof.
  apply universal_newlines_id, has_cr_run_rules;
    [apply rules_without_cr | apply has_cr_universal].
Qed.

(** ** The "already patched" markers after a run *)

Lemma apart_nonempty old m : apart old m = true -> old <> EmptyString.
Proof. now destruct old. Qed.

(** Rules whose patterns stay clear of a text [m] leave [m] in place. *)
Lemma run_rules_keep m rs :
  Forall (fun r => regex r = false /\ apart (search r) m = true) rs ->
  forall c, contains m c = true -> contains m (fst (run_rules rs c)) = true.
Proof.
  induction 1 as [|r rs [Hr Ha] _ IH]; intros c Hc; [exact Hc|].
  rewrite run_rules_cons. cbn [fst]. apply IH. unfold step.
  destruct (applies r c); [|exact Hc].
  unfold substitute. rewrite Hr.
  apply replace_keeps; [now apply apart_nonempty in Ha | exact Ha | exact Hc].
Qed.




Lemma mxfp4_search c : re_search mxfp4_old_pattern c = contains "< (11, 0)" c.
Proof. reflexivity. Qed.

Lemma mxfp4_sub c :
  re_sub mxfp4_old_pattern mxfp4_new_pattern c = replace "< (11, 0)" "<= (12, 1)" c.
Proof. reflexivity. Qed.

(** Applying the first rule of a unit puts its marker into the text. *)
Lemma first_rule_marks u c :
  match rules u with
  | r :: _ => applies r c = true -> already_applied u (step c r) = true
  | [] => True
  end.
Proof.
  destruct u; cbn [rules already_applied]; unfold step; intros H; rewrite H;
    rewrite ?applies_plain, ?applies_regex in H;
    rewrite ?substitute_plain, ?substitute_regex.
  - eapply contains_trans; [|apply replace_present; [discriminate | exact H]].
    reflexivity.
  - rewrite mxfp4_search in H. rewrite mxfp4_sub.
    apply replace_present; [discriminate | exact H].
  - apply andb_true_iff. split;
      (eapply contains_trans; [|apply replace_present; [discriminate | exact H]]);
      reflexivity.
  - eapply contains_trans; [|apply replace_present; [discriminate | exact H]].
    reflexivity.
Qed.

(** The later rules of a unit leave its marker in place. *)
Lemma later_rules_keep_marker u c :
  match rules u with
  | _ :: rs => already_applied u c = true -> already_applied u (fst (run_rules rs c)) = true
  | [] => True
  end.
Proof.
  destruct u; cbn [rules already_applied]; intros H.
  - apply run_rules_keep; [|exact H]. repeat constructor.
  - exact H.
  - apply andb_true_iff in H as [H1 H2]. apply andb_true_iff.
    split; (apply run_rules_keep; [|assumption]); repeat constructor.
  - apply run_rules_keep; [|exact H]. unfold fp8_patterns. repeat constructor.
Qed.


(** ** The outcome read off a run *)

Lemma skip_line_classified n p : classify n true [skip_line p] = SkippedAlreadyApplied.
Proof.
  unfold classify, skip_line. cbn [negb existsb]. now rewrite startswith_append.
Qed.

Lemma classify_true_not_missing n lines : classify n true lines <> SkippedMissing.
Proof.
  unfold classify, outcome_of_count. cbn [negb].
  destruct (existsb _ lines); [discriminate|].
  destruct (_ =? 0)%nat; [discriminate|]. destruct (_ <? n)%nat; discriminate.
Qed.

Lemma observe_ok dir u w b w' :
  patch dir u w = (Ok b, w') ->
  observe dir u w =
    (Ok (classify (length (rules u)) b (drop (length (stdout w)) (stdout w'))), w').
Proof. intros H. unfold observe. now rewrite H. Qed.


Lemma observe_missing dir u w :
  files w !! target dir u = None ->
  observe dir u w =
    (Ok SkippedMissing, checked_world (target dir u) [missing_line (target dir u)] w).
Proof.
  intros Hf. erewrite observe_ok by exact (patch_missing dir u w Hf). reflexivity.
Qed.

Lemma observe_skip dir u w n :
  files w !! target dir u = Some n -> readable n = true ->
  already_applied u (universal_newlines (data n)) = true ->
  observe dir u w =
    (Ok SkippedAlreadyApplied, read_world (target dir u) [skip_line (target dir u)] w).
Proof.
  intros Hf Hr Ha. erewrite observe_ok by exact (patch_skip dir u w n Hf Hr Ha).
  cbn [stdout read_world]. now rewrite drop_app_length, skip_line_classified.
Qed.

Lemma observe_apply dir u w n :
  files w !! target dir u = Some n -> readable n = true ->
  already_applied u (universal_newlines (data n)) = false -> writable n = true ->
  exists lines,
    observe dir u w =
      (Ok (outcome_of_count (applied_count u (universal_newlines (data n)))
                            (length (rules u))),
       patched_world (target dir u) n (rewritten u (universal_newlines (data n))) lines w).
Proof.
  intros Hf Hr Ha Hw. destruct (patch_apply dir u w n Hf Hr Ha Hw) as (lines & Hp & Hc).
  exists lines. erewrite observe_ok by exact Hp.
  cbn [stdout patched_world]. now rewrite drop_app_length, Hc.
Qed.

(** ** Rules that find nothing *)

Lemma run_rules_none rs c :
  (forall r, In r rs -> found r c = false) -> run_rules rs c = (c, O).
Proof.
  induction rs as [|r rs IH]; intros H; [reflexivity|].
  assert (Hr : applies r c = false).
  { unfold applies. rewrite (H r) by now left. reflexivity. }
  rewrite run_rules_cons. unfold step. rewrite Hr.
  rewrite IH by (intros r' Hr'; apply H; now right). reflexivity.
Qed.

Lemma fold_left_step rs : forall c, fst (run_rules rs c) = fold_left step rs c.
Proof.
  induction rs as [|r rs IH]; intros c; [reflexivity|].
  rewrite run_rules_cons. cbn [fst fold_left]. apply IH.
Qed.

(** ** The capability check of [mxfp4.py] *)

Lemma cap_check_rewritten a b :
  replace "< (11, 0)" "<= (12, 1)" (a +:+ "if cap < (11, 0):" +:+ b) =
  replace "< (11, 0)" "<= (12, 1)" a +:+ "if cap <= (12, 1):"
    +:+ replace "< (11, 0)" "<= (12, 1)" b.
Proof.
  assert (Hold : "< (11, 0)" <> EmptyString) by discriminate.
  assert (Hns : no_straddle "< (11, 0)" a ("if cap < (11, 0):" +:+ b)).
  { apply (no_straddle_before "< (11, 0)" "<"%char " (11, 0)"); reflexivity. }
  rewrite (replace_app _ _ Hold _ _ Hns).
  (* from here on the scan runs over known characters up to [b] *)
  reflexivity.
Qed.

Lemma new_ops_app w os : drop (length (ops w)) (ops w ++ os) = os.
Proof. apply drop_app_length. Qed.

(** ** The targets are four different paths *)

Lemma path_join_inj dir a b :
  startswith "/" a = false -> startswith "/" b = false ->
  path_join dir a = path_join dir b -> a = b.
Proof.
  unfold path_join. intros -> ->.
  destruct (String.eqb dir EmptyString || endswith "/" dir); intros H;
    apply append_cancel_l in H; [exact H|].
  now apply (append_cancel_l "/") in H.
Qed.

Lemma target_inj dir u v : target dir u = target dir v -> u = v.
Proof.
  unfold target. intros H. apply path_join_inj in H; [|now destruct u|now destruct v].
  destruct u, v; (reflexivity || discriminate H).
Qed.


(** ** Runs of several units *)

Section SequenceFacts.

Variable dir : string.
Implicit Types (w : world) (u : unit_id) (us : list unit_id).


(** A sequence only touches the targets of its units. *)
Lemma run_units_frame us :
  forall w r w',
    run_units dir us w = (r, w') ->
    forall q, (forall u, In u us -> q <> target dir u) ->
      files w' !! q = files w !! q /\
      exists os, ops w' = ops w ++ os /\ Forall (fun o => op_path o <> q) os.
Proof.
  induction us as [|u us IH]; intros w r w' H q Hq.
  - injection H as <- <-. split; [reflexivity|]. exists []. now rewrite app_nil_r.
  - cbn [run_units] in H. unfold bind at 1 in H.
    destruct (patch dir u w) as [[b|e1] w1] eqn:Hp.
    + apply patch_run_inv in Hp.
      pose proof (unit_run_other dir u w _ w1 q Hp (Hq u (or_introl eq_refl))) as Hfu.
      destruct (unit_run_ops dir u w _ w1 Hp) as (os1 & Ho1 & Hall1).
      unfold bind at 1 in H. destruct (run_units dir us w1) as [r2 w2] eqn:Hr.
      assert (w' = w2) as -> by (destruct r2; now injection H).
      destruct (IH w1 r2 w2 Hr q (fun v Hv => Hq v (or_intror Hv)))
        as (Hf2 & os2 & Ho2 & Hall2).
      split; [congruence|]. exists (os1 ++ os2).
      split; [now rewrite Ho2, Ho1, <- app_assoc|].
      apply Forall_app. split; [|exact Hall2].
      eapply Forall_impl; [exact Hall1|]. cbn. intros o ->. intros E.
      now apply (Hq u (or_introl eq_refl)).
    + injection H as <- <-. apply patch_run_inv in Hp.
      split; [now apply (unit_run_other dir u w _ w1 q Hp), Hq; left|].
      destruct (unit_run_ops dir u w _ w1 Hp) as (os1 & Ho1 & Hall1).
      exists os1. split; [exact Ho1|].
      eapply Forall_impl; [exact Hall1|]. cbn. intros o ->. intros E.
      now apply (Hq u (or_introl eq_refl)).
Qed.

(** The outcomes read off a sequence that returned: a unit returned
    [False] exactly where its outcome is skipped-missing. *)
Lemma run_units_observed us :
  forall w bs w',
    run_units dir us w = (Ok bs, w') ->
    exists report,
      observe_all dir us w = (Ok report, w') /\
      map fst report = us /\
      Forall2 (fun b entry => b = false <-> snd entry = SkippedMissing) bs report.
Proof.
  induction us as [|u us IH]; intros w bs w' H.
  - injection H as <- <-. exists []. now repeat split.
  - cbn [run_units] in H. unfold bind at 1 in H.
    destruct (patch dir u w) as [[b|e1] w1] eqn:Hp; [|discriminate].
    unfold bind at 1 in H. destruct (run_units dir us w1) as [[bs'|e2] w2] eqn:Hr;
      [|discriminate]. injection H as <- <-.
    destruct (IH w1 bs' w2 Hr) as (report & Ho & Hm & Hall).
    eexists ((u, _) :: report). split.
    + cbn [observe_all]. erewrite bind_ok by exact (observe_ok dir u w b w1 Hp).
      now erewrite bind_ok by exact Ho.
    + split; [cbn; now rewrite Hm|]. constructor; [|exact Hall].
      cbn [snd]. destruct b; split; try discriminate; try reflexivity.
      intros E. now apply classify_true_not_missing in E.
Qed.

Lemma run_units_length us :
  forall w bs w', run_units dir us w = (Ok bs, w') -> length bs = length us.
Proof.
  intros w bs w' H. destruct (run_units_observed us w bs w' H) as (report & _ & Hm & Hall).
  apply Forall2_length in Hall. rewrite Hall, <- Hm. now rewrite length_map.
Qed.

End SequenceFacts.

Lemma forallb_snd_combine {A : Type} (names : list A) (bs : list bool) :
  length names = length bs ->
  forallb snd (combine names bs) = forallb (fun b => b) bs.
Proof.
  revert bs. induction names as [|x names IH]; intros [|b bs] H; try discriminate;
    [reflexivity|].
  cbn. f_equal. apply IH. now injection H.
Qed.

(** ** A write that fails *)

(** The target can be read and not written: the function prints that it
    patched, [open] raises, and the file is as it was. *)
Example write_failure_keeps_file :
  let w := Sample.only Mxfp4 (Sample.read_only Sample.cap_line) in
  patch Sample.dir Mxfp4 w =
    (Raise (OSError (target Sample.dir Mxfp4)),
     read_world (target Sample.dir Mxfp4)
       ["PATCHED: device capability range in " +:+ target Sample.dir Mxfp4] w).
Proof. vm_compute. reflexivity. Qed.

(** ** Two facts the statements below rest on *)

Lemma all_true_iff_none_missing (bs : list bool) (report : list (unit_id * PatchOutcome)) :
  Forall2 (fun b entry => b = false <-> snd entry = SkippedMissing) bs report ->
  forallb (fun b => b) bs = true <->
  forall u o, In (u, o) report -> o <> SkippedMissing.
Proof.
  induction 1 as [|b [u o] bs report Hb _ IH]; [easy|].
  cbn [forallb snd] in *. rewrite andb_true_iff, IH. split.
  - intros [-> Hrest] u' o' [E|Hin]; [|now apply (Hrest u')].
    injection E as <- <-. intros Ho. apply Hb in Ho. discriminate.
  - intros Hall. split; [|intros u' o' Hin; apply (Hall u'); now right].
    destruct b; [reflexivity|]. exfalso. apply (Hall u o); [now left | now apply Hb].
Qed.

Lemma fresh_checkout_io_ok : io_ok Sample.dir Sample.fresh_checkout.
Proof.
  intros u n H. destruct u; vm_compute in H; injection H as <-; split; reflexivity.
Defined.

(** ** Sequences, replacement and text mode: what the statements below
    also rest on *)

Lemma run_units_cons dir u us w :
  run_units dir (u :: us) w =
  match patch dir u w with
  | (Ok b, w1) =>
      match run_units dir us w1 with
      | (Ok bs, w2) => (Ok (b :: bs), w2)
      | (Raise e, w2) => (Raise e, w2)
      end
  | (Raise e, w1) => (Raise e, w1)
  end.
Proof.
  cbn [run_units]. unfold bind, ret.
  destruct (patch dir u w) as [[b|e] w1]; [|reflexivity].
  destruct (run_units dir us w1) as [[bs|e] w2]; reflexivity.
Qed.

Lemma unit_run_returns dir u w r w' :
  unit_run dir u w r w' -> forall b, r = Ok b -> b = present w (target dir u).
Proof.
  destruct 1 as [Hf|n Hf Hr|n Hf Hr Ha|n lines Hf Hr Ha Hw Hc|n lines Hf Hr Ha Hw];
    intros b E; try discriminate; injection E as <-; unfold present; now rewrite Hf.
Qed.

Lemma run_units_present dir us :
  forall w bs w',
    run_units dir us w = (Ok bs, w') -> bs = map (fun u => present w (target dir u)) us.
Proof.
  induction us as [|u us IH]; intros w bs w' H.
  - now injection H as <- <-.
  - rewrite run_units_cons in H.
    destruct (patch dir u w) as [[b|e] w1] eqn:Hp; [|discriminate].
    destruct (run_units dir us w1) as [[bs'|e] w2] eqn:Hr; [|discriminate].
    injection H as <- <-. apply patch_run_inv in Hp.
    cbn [map]. f_equal; [exact (unit_run_returns dir u w _ w1 Hp b eq_refl)|].
    rewrite (IH w1 bs' w2 Hr). apply map_ext. intros v.
    apply same_shape_present. exact (unit_run_shape dir u w _ w1 Hp).
Qed.

Lemma forallb_map_id {A : Type} (f : A -> bool) (l : list A) :
  forallb (fun b => b) (map f l) = forallb f l.
Proof. induction l as [|x l IH]; [reflexivity|]. cbn. now rewrite IH. Qed.

(** An entry of the report is skipped-missing exactly where the function
    returned [False]. *)
Lemma report_entries (f : unit_id -> bool) (report : list (unit_id * PatchOutcome)) :
  Forall2 (fun b entry => b = false <-> snd entry = SkippedMissing)
          (map f (map fst report)) report ->
  forall u o, In (u, o) report -> (o = SkippedMissing <-> f u = false).
Proof.
  induction report as [|[u0 o0] report IH]; intros H u o Hin; [destruct Hin|].
  cbn [map fst] in H. inversion H as [|? ? ? ? Hb Hrest]; subst.
  destruct Hin as [E|Hin]; [|now apply IH].
  injection E as <- <-. cbn [snd] in Hb. now symmetry.
Qed.

Lemma some_unit_fails (f : unit_id -> bool) :
  forallb f units = false <-> exists u, f u = false.
Proof.
  unfold units. cbn [forallb]. split.
  - destruct (f CustomOps) eqn:E1; [|eauto]. destruct (f Mxfp4) eqn:E2; [|eauto].
    destruct (f W8a8Utils) eqn:E3; [|eauto]. destruct (f MatcherUtils) eqn:E4; [|eauto].
    discriminate.
  - intros [u Hu]. destruct u; rewrite Hu; now rewrite ?andb_false_r.
Qed.

Lemma present_false w p : present w p = false <-> files w !! p = None.
Proof. unfold present. destruct (files w !! p); split; congruence. Qed.

Lemma startswith_short p a x :
  (String.length p <= String.length a)%nat -> startswith p (a +:+ x) = startswith p a.
Proof.
  revert a. induction p as [|b p IH]; intros a Hlen; [reflexivity|].
  destruct a as [|c a]; [simpl in Hlen; lia|].
  rewrite append_cons. simpl. f_equal. apply IH. simpl in Hlen. lia.
Qed.

Lemma py_index_head {A : Type} (x : A) (l : list A) : py_index (x :: l) 0 = Ok x.
Proof.
  unfold py_index. cbn [length]. change (0 <? 0)%Z with false. cbv iota.
  destruct (Z.ltb_spec 0 (Z.of_nat (S (length l)))); [reflexivity | lia].
Qed.

(** ** [str.replace] replaces every occurrence *)

Section AllReplaced.

Variables old new : string.
Hypothesis old_nonempty : old <> EmptyString.

Lemma before_first_nil : before_first old EmptyString.
Proof. intros a1 a2 E Hne. destruct a1, a2; try discriminate E. congruence. Qed.

Lemma before_first_tail c a : before_first old (String c a) -> before_first old a.
Proof. intros H a1 a2 -> Hne. now apply (H (String c a1) a2). Qed.

Lemma before_first_miss c a rest :
  before_first old (String c a) ->
  startswith old (String c a +:+ old +:+ rest) = false.
Proof.
  intros H. rewrite <- append_assoc.
  rewrite startswith_short; [now apply (H EmptyString (String c a))|].
  rewrite append_length. lia.
Qed.

Lemma all_replaced_cons c s t :
  startswith old (String c s) = false ->
  all_replaced old new s t -> all_replaced old new (String c s) (String c t).
Proof.
  intros Hc H. destruct H as [s Hs|a rest rest' Ha Hrest].
  - apply replaced_none. simpl. now rewrite Hc, Hs.
  - rewrite <- !append_cons. apply replaced_first; [|exact Hrest].
    intros a1 a2 E Hne. destruct a1 as [|c1 a1].
    + change (String c a = a2) in E. subst a2.
      destruct (startswith old (String c a +:+ old)) eqn:E2; [|reflexivity].
      apply (startswith_weaken _ _ rest) in E2.
      rewrite append_assoc, append_cons in E2. congruence.
    + rewrite append_cons in E. injection E as _ ->. now apply (Ha a1 a2).
Qed.

Lemma replace_all_replaced_bounded n :
  forall s, (String.length s <= n)%nat -> all_replaced old new s (replace old new s).
Proof.
  destruct (old_cons old old_nonempty) as (o & old' & Ho).
  induction n as [|n IH]; intros s Hlen.
  - destruct s; [|simpl in Hlen; lia]. rewrite replace_empty by exact old_nonempty.
    apply replaced_none. simpl. now rewrite Ho.
  - destruct s as [|c s].
    { rewrite replace_empty by exact old_nonempty. apply replaced_none. simpl. now rewrite Ho. }
    destruct (startswith old (String c s)) eqn:E.
    + apply startswith_spec in E as [r Hr]. rewrite Hr in *.
      rewrite replace_hit by exact old_nonempty.
      apply (replaced_first old new EmptyString r); [apply before_first_nil|].
      apply IH. rewrite append_length, Ho in Hlen. simpl in Hlen. lia.
    + rewrite replace_miss by assumption. apply all_replaced_cons; [exact E|].
      apply IH. simpl in Hlen. lia.
Qed.

(** What [s.replace(old, new)] returns. *)
Lemma replace_all_replaced s : all_replaced old new s (replace old new s).
Proof. now apply (replace_all_replaced_bounded (String.length s)). Qed.

(** The piece before the first occurrence. *)
Lemma split_scan_first a :
  forall acc rest, before_first old a ->
    exists tl, split_scan old 0 acc (a +:+ old +:+ rest) = (acc +:+ a) :: tl.
Proof.
  destruct (old_cons old old_nonempty) as (o & old' & Ho).
  induction a as [|c a IH]; intros acc rest Ha.
  - change (EmptyString +:+ old +:+ rest) with (old +:+ rest).
    pose proof (startswith_append old rest) as Hs.
    rewrite Ho in *. rewrite append_cons in *. cbn [split_scan]. rewrite Hs.
    rewrite append_empty_r. now eexists.
  - pose proof (before_first_miss c a rest Ha) as Hs.
    rewrite append_cons in *. cbn [split_scan]. rewrite Hs.
    destruct (IH (acc +:+ String c EmptyString) rest (before_first_tail c a Ha)) as [tl Htl].
    exists tl. rewrite Htl. now rewrite append_assoc.
Qed.

End AllReplaced.

(** ** The line before the first occurrence *)

Lemma split_scan_one_line s :
  forall acc, contains nl s = false -> split_scan nl 0 acc s = [acc +:+ s].
Proof.
  induction s as [|c s IH]; intros acc H.
  - now rewrite append_empty_r.
  - apply contains_false_startswith in H as [H1 H2].
    cbn [split_scan]. rewrite H1, (IH _ H2). now rewrite append_assoc.
Qed.

Lemma split_scan_last_line l0 :
  forall acc line, endswith nl l0 = true -> contains nl line = false ->
    exists init, split_scan nl 0 acc (l0 +:+ line) = init ++ [line].
Proof.
  induction l0 as [|c l0 IH]; intros acc line He Hl; [discriminate He|].
  rewrite append_cons. cbn [split_scan].
  assert (Hrest : l0 = EmptyString \/ endswith nl l0 = true).
  { destruct l0 as [|c' l0]; [now left | right].
    cbn [endswith] in He. apply orb_true_iff in He as [He|He]; [|exact He].
    apply String.eqb_eq in He. discriminate He. }
  destruct (startswith nl (String c (l0 +:+ line))) eqn:E.
  - change (String.length nl - 1)%nat with 0%nat.
    destruct Hrest as [->|Hrest].
    + exists [acc]. change (EmptyString +:+ line) with line.
      now rewrite split_scan_one_line.
    + destruct (IH EmptyString line Hrest Hl) as [init Hi].
      exists (acc :: init). now rewrite Hi.
  - destruct Hrest as [->|Hrest].
    + exfalso. cbn [endswith] in He. rewrite orb_false_r in He.
      apply String.eqb_eq in He. injection He as <-. discriminate E.
    + destruct (IH (acc +:+ String c EmptyString) line Hrest Hl) as [init Hi].
      exists init. exact Hi.
Qed.

Lemma py_index_last_app {A : Type} (init : list A) (x : A) :
  py_index (init ++ [x]) (-1) = Ok x.
Proof.
  unfold py_index. change (-1 <? 0)%Z with true. cbv iota.
  rewrite length_app. cbn [length].
  replace (Z.of_nat (length init + 1) + -1)%Z with (Z.of_nat (length init)) by lia.
  destruct (Z.leb_spec 0 (Z.of_nat (length init))); [|lia].
  destruct (Z.ltb_spec (Z.of_nat (length init)) (Z.of_nat (length init + 1))); [|lia].
  cbn [andb]. rewrite Nat2Z.id.
  rewrite lookup_app_r by lia. now rewrite Nat.sub_diag.
Qed.

(** What [content.split(old)[0].split('\n')[-1]] is: the text between the
    last line end before the first occurrence of [old] and that
    occurrence. *)
Lemma line_of_first old l0 line rest :
  old <> EmptyString ->
  before_first old (l0 +:+ line) ->
  contains nl line = false ->
  l0 = EmptyString \/ endswith nl l0 = true ->
  line_of old ((l0 +:+ line) +:+ old +:+ rest) = line.
Proof.
  intros Hne Hb Hl Hl0.
  destruct (split_scan_first old Hne (l0 +:+ line) EmptyString rest Hb) as [tl Htl].
  change (EmptyString +:+ (l0 +:+ line)) with (l0 +:+ line) in Htl.
  assert (Hlast : exists init, split_scan nl 0 EmptyString (l0 +:+ line) = init ++ [line]).
  { destruct Hl0 as [->|Hl0]; [|now apply split_scan_last_line].
    exists []. change (EmptyString +:+ line) with line. now rewrite split_scan_one_line. }
  destruct Hlast as [init Hi].
  unfold line_of, line_before, py_split, split.
  destruct (old_cons old Hne) as (o & old' & Ho). rewrite Ho in *.
  rewrite Htl. cbn [result_bind]. rewrite py_index_head. cbn [result_bind nl].
  fold nl. rewrite Hi. cbn [result_bind]. now rewrite py_index_last_app.
Qed.

(** The rules of the four functions look for one non-empty text each, and
    replace by [str.replace] on it. *)
Lemma rule_literal u r :
  In r (rules u) ->
  literal r <> EmptyString /\
  forall x, found r x = contains (literal r) x /\
            substitute r x = replace (literal r) (replacement r) x.
Proof.
  destruct u; cbn [rules fp8_patterns map]; intros Hin;
    repeat (destruct Hin as [<-|Hin];
            [split; [vm_compute; discriminate | intros x; split; reflexivity]|]);
    destruct Hin.
Qed.

(** ** Text mode and the place of a pattern *)

(** A text without carriage return in front is read as it stands. *)
Lemma universal_newlines_keeps m b :
  has_cr m = false -> universal_newlines (m +:+ b) = m +:+ universal_newlines b.
Proof.
  induction m as [|c m IH]; intros H; [reflexivity|].
  cbn [has_cr] in H. apply orb_false_iff in H as [Hc H].
  rewrite !append_cons. cbn [universal_newlines]. rewrite Hc. now rewrite IH.
Qed.

Lemma universal_newlines_cr c s :
  eqb_ascii c CR = true ->
  universal_newlines (String c s) =
    match s with
    | EmptyString => String LF EmptyString
    | String c' s'' =>
        if eqb_ascii c' LF then String LF (universal_newlines s'')
        else String LF (universal_newlines s)
    end.
Proof. intros H. cbn [universal_newlines]. now rewrite H. Qed.

Lemma universal_newlines_other c s :
  eqb_ascii c CR = false -> universal_newlines (String c s) = String c (universal_newlines s).
Proof. intros H. cbn [universal_newlines]. now rewrite H. Qed.

Lemma universal_newlines_app_aux m s :
  startswith nl m = false ->
  universal_newlines (s +:+ m) = universal_newlines s +:+ universal_newlines m /\
  forall c, universal_newlines (String c s +:+ m) =
            universal_newlines (String c s) +:+ universal_newlines m.
Proof.
  intros Hm. induction s as [|d s [IH1 IH2]].
  - split; [reflexivity|]. intros c.
    change (String c EmptyString +:+ m) with (String c m).
    destruct (eqb_ascii c CR) eqn:Ec.
    + rewrite !(universal_newlines_cr c _ Ec).
      destruct m as [|c' m]; [reflexivity|].
      cbn [startswith nl] in Hm. rewrite andb_true_r in Hm.
      assert (E : eqb_ascii c' LF = false).
      { destruct (eqb_ascii c' LF) eqn:E; [|reflexivity].
        apply eqb_ascii_true in E. subst c'. unfold eqb_ascii in Hm.
        now rewrite Ascii.eqb_refl in Hm. }
      now rewrite E.
    + now rewrite !(universal_newlines_other c _ Ec).
  - split; [apply IH2|]. intros c. rewrite (append_cons c).
    destruct (eqb_ascii c CR) eqn:Ec.
    + rewrite !(universal_newlines_cr c _ Ec). rewrite (append_cons d). cbv beta iota.
      destruct (eqb_ascii d LF).
      * now rewrite IH1.
      * rewrite <- (append_cons d). now rewrite IH2.
    + rewrite !(universal_newlines_other c _ Ec). now rewrite IH2.
Qed.

(** Reading goes through a place behind which no line feed stands. *)
Lemma universal_newlines_app s m :
  startswith nl m = false ->
  universal_newlines (s +:+ m) = universal_newlines s +:+ universal_newlines m.
Proof. intros H. now apply universal_newlines_app_aux. Qed.

(** A text without line ends begins what is read where it begins what is
    stored. *)
Lemma startswith_universal m :
  has_cr m = false -> contains nl m = false ->
  forall s, startswith m (universal_newlines s) = startswith m s.
Proof.
  induction m as [|a m IH]; intros Hcr Hlf s; [reflexivity|].
  cbn [has_cr] in Hcr. apply orb_false_iff in Hcr as [Ha Hcr].
  apply contains_false_startswith in Hlf as [Hl Hlf].
  cbn [startswith nl] in Hl. rewrite andb_true_r in Hl.
  assert (Ha' : forall c, eqb_ascii c CR = true -> eqb_ascii a c = false).
  { intros c Hc. apply eqb_ascii_true in Hc. now subst c. }
  assert (Hl' : eqb_ascii a LF = false).
  { unfold eqb_ascii in *. now rewrite Ascii.eqb_sym. }
  destruct s as [|c s]; [reflexivity|].
  cbn [universal_newlines]. destruct (eqb_ascii c CR) eqn:Ec.
  - cbn [startswith]. rewrite (Ha' c Ec).
    destruct s as [|c' s]; [cbn [startswith]; now rewrite Hl'|].
    destruct (eqb_ascii c' LF); cbn [startswith]; now rewrite Hl'.
  - cbn [startswith]. now rewrite IH.
Qed.

(** It occurs in what is read exactly when it occurs in what is stored. *)
Lemma contains_universal_bounded m :
  m <> EmptyString -> has_cr m = false -> contains nl m = false ->
  forall n s, (String.length s <= n)%nat ->
    contains m (universal_newlines s) = contains m s.
Proof.
  intros Hne Hcr Hlf.
  assert (Hempty : startswith m EmptyString = false) by (destruct m; [congruence|reflexivity]).
  assert (Hst : forall c s, eqb_ascii c CR = true \/ eqb_ascii c LF = true ->
                  startswith m (String c s) = false).
  { intros c s Hc. destruct m as [|a m]; [congruence|].
    cbn [has_cr] in Hcr. apply orb_false_iff in Hcr as [Ha _].
    apply contains_false_startswith in Hlf as [Hl _].
    cbn [startswith nl] in Hl. rewrite andb_true_r in Hl.
    cbn [startswith]. destruct Hc as [Hc|Hc]; apply eqb_ascii_true in Hc; subst c.
    - now rewrite Ha.
    - unfold eqb_ascii in *. now rewrite Ascii.eqb_sym, Hl. }
  induction n as [|n IH]; intros s Hlen.
  - destruct s; [reflexivity | simpl in Hlen; lia].
  - destruct s as [|c s]; [reflexivity|].
    cbn [universal_newlines]. destruct (eqb_ascii c CR) eqn:Ec.
    + cbn [contains]. rewrite (Hst c s (or_introl Ec)). cbn [orb].
      destruct s as [|c' s].
      { cbn [contains]. rewrite Hempty, orb_false_r. apply Hst. right. reflexivity. }
      destruct (eqb_ascii c' LF) eqn:El.
      * cbn [contains]. rewrite (Hst LF _ (or_intror eq_refl)).
        rewrite (Hst c' s (or_intror El)). cbn [orb].
        apply IH. simpl in Hlen. lia.
      * cbn [contains]. rewrite (Hst LF _ (or_intror eq_refl)). cbn [orb].
        rewrite (IH (String c' s)) by (simpl in Hlen |- *; lia). reflexivity.
    + cbn [contains].
      replace (String c (universal_newlines s)) with (universal_newlines (String c s))
        by (cbn [universal_newlines]; now rewrite Ec).
      rewrite startswith_universal by assumption. f_equal.
      apply IH. simpl in Hlen. lia.
Qed.

Lemma contains_universal m s :
  m <> EmptyString -> has_cr m = false -> contains nl m = false ->
  contains m (universal_newlines s) = contains m s.
Proof. intros. now apply (contains_universal_bounded m) with (n := String.length s). Qed.

(** * The claims *)

(** C1, as the code has it.  A run of [main] that no exception ends gives
    status 0 or 1, and it gives 0 unless some unit's outcome is
    skipped-missing.  An outcome is skipped-missing exactly when the target
    of the function does not exist, so the status is 1 exactly when some
    target is missing: a missing target makes the run fail, while
    applied-partial and no-op outcomes do not. *)
Theorem status_one_iff_target_missing dir w status w' :
  main dir w = (Ok status, w') ->
  exists report w1,
    run_report dir w = (Ok report, w1) /\
    map fst report = units /\
    (status = 0 \/ status = 1)%Z /\
    (status = 0%Z <-> forall u o, In (u, o) report -> o <> SkippedMissing) /\
    (forall u o, In (u, o) report ->
       (o = SkippedMissing <-> files w !! target dir u = None)) /\
    (status = 1%Z <-> exists u, files w !! target dir u = None).
Proof.
  intros H. rewrite main_eq in H.
  destruct (banner_run dir w) as (w0 & Hb & Hf0 & _).
  erewrite bind_ok in H by exact Hb. unfold bind at 1 in H.
  destruct (run_units dir units w0) as [[bs|e] w1] eqn:Hr; [|discriminate].
  destruct (conclude_run (combine (map file_name units) bs) w1) as (w2 & Hc & _).
  rewrite forallb_snd_combine in Hc
    by (rewrite length_map; symmetry; exact (run_units_length dir units w0 bs w1 Hr)).
  pose proof (run_units_present dir units w0 bs w1 Hr) as Hbs.
  assert (Hpres : forall u, present w0 (target dir u) = false <->
                            files w !! target dir u = None).
  { intros u. rewrite present_false. now rewrite Hf0. }
  assert (Hok : forallb (fun b => b) bs = false <-> exists u, files w !! target dir u = None).
  { rewrite Hbs, forallb_map_id, some_unit_fails.
    split; intros [u Hu]; exists u; now apply Hpres. }
  set (ok := forallb (fun b => b) bs) in *.
  rewrite Hc in H. injection H as <- <-.
  destruct (run_units_observed dir units w0 bs w1 Hr) as (report & Ho & Hm & Hall).
  exists report, w1. split.
  { unfold run_report. now erewrite bind_ok by exact Hb. }
  split; [exact Hm|].
  split; [destruct ok; auto|].
  split.
  { rewrite <- (all_true_iff_none_missing bs report Hall). fold ok.
    destruct ok; split; (reflexivity || discriminate). }
  split.
  { intros u o Hin. rewrite <- Hpres.
    apply (report_entries (fun v => present w0 (target dir v)) report); [|exact Hin].
    rewrite Hm, <- Hbs. exact Hall. }
  rewrite <- Hok. destruct ok; split; (reflexivity || discriminate).
Qed.

Lemma status_one_iff_target_missing_witness :
  let w := Sample.drifted_checkout in
  main Sample.dir w = (Ok 0%Z, snd (main Sample.dir w)) /\
  exists report w1,
    run_report Sample.dir w = (Ok report, w1) /\
    map fst report = units /\
    (0 = 0 \/ 0 = 1)%Z /\
    (0%Z = 0%Z <-> forall u o, In (u, o) report -> o <> SkippedMissing) /\
    (forall u o, In (u, o) report ->
       (o = SkippedMissing <-> files w !! target Sample.dir u = None)) /\
    (0%Z = 1%Z <-> exists u, files w !! target Sample.dir u = None).
Proof.
  intros w.
  assert (H : main Sample.dir w = (Ok 0%Z, snd (main Sample.dir w)))
    by (vm_compute; reflexivity).
  split; [exact H|].
  exact (status_one_iff_target_missing Sample.dir w 0%Z _ H).
Defined.

(** C1 as stated fails: below no unit meets an I/O failure, two targets are
    missing, and the status is 1. *)
Lemma missing_target_fails_the_run :
  fst (run_report Sample.dir Sample.half_checkout) =
    Ok [(CustomOps, SkippedMissing); (Mxfp4, NoOp);
        (W8a8Utils, AppliedPartial); (MatcherUtils, SkippedMissing)] /\
  fst (main Sample.dir Sample.half_checkout) = Ok 1%Z.
Proof. vm_compute. split; reflexivity. Qed.







(** Outside C3 as amended: a run of [patch_matcher_utils] that applies a
    loop rule and not the [SILU_MUL_OP] rule leaves no marker, and the test
    for [hasattr] looks before the pattern while the wrapper stands behind
    it; a second run wraps the reference a second time. *)
Lemma matcher_utils_wraps_twice :
  let w := Sample.only MatcherUtils (Sample.file Sample.quant_line) in
  let w1 := snd (patch Sample.dir MatcherUtils w) in
  let w2 := snd (patch Sample.dir MatcherUtils w1) in
  fst (observe Sample.dir MatcherUtils w) = Ok AppliedPartial /\
  files w1 !! target Sample.dir MatcherUtils = Some (Sample.file Sample.quant_line_wrapped) /\
  fst (observe Sample.dir MatcherUtils w1) = Ok AppliedPartial /\
  files w2 !! target Sample.dir MatcherUtils
    = Some (Sample.file Sample.quant_line_wrapped_twice).
Proof. vm_compute. repeat split. Qed.

(** C4, as the code has it.  Past the "already patched" test the function
    always writes its target, exactly once, whatever the number of rules
    that matched: the write does not depend on a match. *)
Theorem writes_back_whatever_matched dir u w n :
  files w !! target dir u = Some n ->
  readable n = true ->
  writable n = true ->
  already_applied u (universal_newlines (data n)) = false ->
  exists w',
    patch dir u w = (Ok true, w') /\
    new_ops w w' =
      [OpExists (target dir u); OpRead (target dir u);
       OpWrite (target dir u) (rewritten u (universal_newlines (data n)))] /\
    length (List.filter is_write (new_ops w w')) = 1%nat /\
    files w' =
      <[target dir u := Node (rewritten u (universal_newlines (data n)))
                             (readable n) (writable n)]> (files w).
Proof.
  intros Hf Hr Hw Ha. destruct (patch_apply dir u w n Hf Hr Ha Hw) as (lines & Hp & _).
  eexists. split; [exact Hp|]. unfold new_ops. cbn [ops files patched_world].
  rewrite new_ops_app. now repeat split.
Qed.

Lemma writes_back_whatever_matched_witness :
  let w := Sample.only Mxfp4 (Sample.file Sample.plain_line) in
  exists w',
    patch Sample.dir Mxfp4 w = (Ok true, w') /\
    new_ops w w' =
      [OpExists (target Sample.dir Mxfp4); OpRead (target Sample.dir Mxfp4);
       OpWrite (target Sample.dir Mxfp4)
         (rewritten Mxfp4 (universal_newlines (data (Sample.file Sample.plain_line))))] /\
    length (List.filter is_write (new_ops w w')) = 1%nat /\
    files w' =
      <[target Sample.dir Mxfp4 :=
          Node (rewritten Mxfp4 (universal_newlines (data (Sample.file Sample.plain_line))))
               true true]> (files w).
Proof.
  intros w.
  apply (writes_back_whatever_matched Sample.dir Mxfp4 w (Sample.file Sample.plain_line));
    vm_compute; reflexivity.
Defined.

(** C4 as stated fails: on the text below the "already patched" test fails
    and no rule finds its pattern, and the function writes the file all the
    same. *)
Lemma writes_without_any_match :
  let w := Sample.only Mxfp4 (Sample.file Sample.plain_line) in
  already_applied Mxfp4 Sample.plain_line = false /\
  forallb (fun r => negb (found r Sample.plain_line)) (rules Mxfp4) = true /\
  new_ops w (snd (patch Sample.dir Mxfp4 w)) =
    [OpExists (target Sample.dir Mxfp4); OpRead (target Sample.dir Mxfp4);
     OpWrite (target Sample.dir Mxfp4) Sample.plain_line].
Proof. vm_compute. repeat split. Qed.

(** C5, as the code has it.  Past the "already patched" test the function
    tries its rules in order, each on the text the earlier ones left, and a
    rule that finds nothing leaves the text as it is and the next rule is
    tried all the same.  A rule looks for one text; where it is applied,
    every occurrence of that text is replaced, taken from the left and not
    overlapping ([str.replace], [re.sub]).  A rule of [patch_custom_ops],
    [patch_mxfp4] or [patch_w8a8_utils] is applied whenever its pattern is
    found.  A rule of the loop of [patch_matcher_utils] is applied only
    when, besides, no [hasattr] stands between the last line end before the
    first occurrence of its pattern and that occurrence.  The file is
    written with the result, and when some and not all rules were applied
    the outcome is applied-partial. *)
Theorem rules_run_in_order dir u w n :
  files w !! target dir u = Some n ->
  readable n = true ->
  writable n = true ->
  already_applied u (universal_newlines (data n)) = false ->
  exists w',
    observe dir u w =
      (Ok (outcome_of_count (applied_count u (universal_newlines (data n)))
                            (length (rules u))), w') /\
    files w' =
      <[target dir u := Node (fold_left step (rules u) (universal_newlines (data n)))
                             (readable n) (writable n)]> (files w) /\
    length (List.filter is_write (new_ops w w')) = 1%nat /\
    (forall r x,
        step x r =
          if found r x &&
             (negb (guarded r) || negb (contains "hasattr" (line_of (search r) x)))
          then substitute r x else x) /\
    (forall r, In r (rules u) -> guarded r = true -> u = MatcherUtils) /\
    ((0 < applied_count u (universal_newlines (data n)) < length (rules u))%nat ->
     outcome_of_count (applied_count u (universal_newlines (data n))) (length (rules u))
       = AppliedPartial) /\
    (forall r x, In r (rules u) ->
        found r x = contains (literal r) x /\
        (applies r x = true -> all_replaced (literal r) (replacement r) x (step x r)) /\
        (applies r x = false -> step x r = x) /\
        (guarded r = false -> applies r x = contains (literal r) x)) /\
    (forall r l0 line rest, In r (rules u) -> guarded r = true ->
        before_first (search r) (l0 +:+ line) ->
        contains nl line = false ->
        l0 = EmptyString \/ endswith nl l0 = true ->
        applies r ((l0 +:+ line) +:+ search r +:+ rest) = negb (contains "hasattr" line)).
Proof.
  intros Hf Hr Hw Ha. destruct (observe_apply dir u w n Hf Hr Ha Hw) as (lines & Ho).
  eexists. split; [exact Ho|]. split.
  { cbn [files patched_world]. unfold rewritten. now rewrite fold_left_step. }
  split.
  { unfold new_ops. cbn [ops patched_world]. now rewrite new_ops_app. }
  split.
  { intros r x. unfold step, applies. now destruct (guarded r). }
  split.
  { intros r Hin Hg. destruct u; [exfalso..|reflexivity]; cbn [rules] in Hin;
      repeat (destruct Hin as [<-|Hin]; [discriminate|]); destruct Hin. }
  split.
  { intros [Hpos Hlt]. unfold outcome_of_count.
    destruct (Nat.eqb_spec (applied_count u (universal_newlines (data n))) 0); [lia|].
    destruct (Nat.ltb_spec (applied_count u (universal_newlines (data n))) (length (rules u)));
      [reflexivity | lia]. }
  split.
  { intros r x Hin. destruct (rule_literal u r Hin) as [Hne Hlit].
    destruct (Hlit x) as [Hfound Hsub].
    split; [exact Hfound|]. unfold step. split; [|split].
    - intros Happ. rewrite Happ, Hsub. now apply replace_all_replaced.
    - now intros ->.
    - intros Hg. unfold applies. rewrite Hg, Hfound. apply andb_true_r. }
  intros r l0 line rest Hin Hg Hb Hl Hl0.
  destruct (rule_literal u r Hin) as [Hne Hlit].
  assert (Hs : search r <> EmptyString).
  { destruct u; cbn [rules fp8_patterns map] in Hin;
      repeat (destruct Hin as [<-|Hin]; [discriminate|]); destruct Hin. }
  unfold applies. rewrite Hg.
  assert (Hfound : found r ((l0 +:+ line) +:+ search r +:+ rest) = true).
  { destruct u; cbn [rules fp8_patterns map] in Hin;
      repeat (destruct Hin as [<-|Hin]; [try discriminate Hg; apply contains_intro|]);
      destruct Hin. }
  rewrite Hfound. cbn [andb]. now rewrite line_of_first.
Qed.

Lemma rules_run_in_order_witness :
  let n := Sample.file (custom_ops_old2 +:+ nl) in
  let w := Sample.only CustomOps n in
  let c := universal_newlines (data n) in
  exists w',
    observe Sample.dir CustomOps w =
      (Ok (outcome_of_count (applied_count CustomOps c) (length (rules CustomOps))), w') /\
    files w' =
      <[target Sample.dir CustomOps :=
          Node (fold_left step (rules CustomOps) c) (readable n) (writable n)]> (files w) /\
    length (List.filter is_write (new_ops w w')) = 1%nat /\
    (forall r x,
        step x r =
          if found r x &&
             (negb (guarded r) || negb (contains "hasattr" (line_of (search r) x)))
          then substitute r x else x) /\
    (forall r, In r (rules CustomOps) -> guarded r = true -> CustomOps = MatcherUtils) /\
    ((0 < applied_count CustomOps c < length (rules CustomOps))%nat ->
     outcome_of_count (applied_count CustomOps c) (length (rules CustomOps))
       = AppliedPartial) /\
    (forall r x, In r (rules CustomOps) ->
        found r x = contains (literal r) x /\
        (applies r x = true -> all_replaced (literal r) (replacement r) x (step x r)) /\
        (applies r x = false -> step x r = x) /\
        (guarded r = false -> applies r x = contains (literal r) x)) /\
    (forall r l0 line rest, In r (rules CustomOps) -> guarded r = true ->
        before_first (search r) (l0 +:+ line) ->
        contains nl line = false ->
        l0 = EmptyString \/ endswith nl l0 = true ->
        applies r ((l0 +:+ line) +:+ search r +:+ rest) = negb (contains "hasattr" line)).
Proof.
  intros n w c.
  apply (rules_run_in_order Sample.dir CustomOps w n); vm_compute; reflexivity.
Defined.

(** C5 as stated fails: on the line below the pattern of a rule of
    [patch_matcher_utils] occurs, and the rule is not applied: the file is
    written back with the occurrence in place, and nothing is reported as
    patched. *)
Lemma found_pattern_not_replaced :
  let w := Sample.only MatcherUtils (Sample.file Sample.guarded_line) in
  let w' := snd (patch Sample.dir MatcherUtils w) in
  already_applied MatcherUtils Sample.guarded_line = false /\
  existsb (fun r => found r Sample.guarded_line) (rules MatcherUtils) = true /\
  files w' !! target Sample.dir MatcherUtils = Some (Sample.file Sample.guarded_line) /\
  fst (observe Sample.dir MatcherUtils w) = Ok NoOp.
Proof. vm_compute. repeat split. Qed.

(** C6.  When the "already patched" test of a unit holds of the text read,
    the function returns [True], reports the skip, and does not write: the
    files are the ones it found, and it only checked and read its target. *)
Theorem already_patched_left_alone dir u w n :
  files w !! target dir u = Some n ->
  readable n = true ->
  already_applied u (universal_newlines (data n)) = true ->
  exists w',
    patch dir u w = (Ok true, w') /\
    observe dir u w = (Ok SkippedAlreadyApplied, w') /\
    files w' = files w /\
    new_ops w w' = [OpExists (target dir u); OpRead (target dir u)].
Proof.
  intros Hf Hr Ha. eexists. split; [exact (patch_skip dir u w n Hf Hr Ha)|].
  split; [exact (observe_skip dir u w n Hf Hr Ha)|].
  split; [reflexivity|]. apply new_ops_app.
Qed.

Lemma already_patched_left_alone_witness :
  let w := Sample.only Mxfp4 (Sample.file Sample.patched_cap_line) in
  exists w',
    patch Sample.dir Mxfp4 w = (Ok true, w') /\
    observe Sample.dir Mxfp4 w = (Ok SkippedAlreadyApplied, w') /\
    files w' = files w /\
    new_ops w w' = [OpExists (target Sample.dir Mxfp4); OpRead (target Sample.dir Mxfp4)].
Proof.
  intros w.
  apply (already_patched_left_alone Sample.dir Mxfp4 w (Sample.file Sample.patched_cap_line));
    vm_compute; reflexivity.
Defined.

(** C7, as the code has it.  A target that does not exist is skipped at
    once: the function prints one warning and returns [False] without
    raising, and the existence check is its only file operation.  A target
    that exists and cannot be opened for reading is not skipped: [open]
    raises, and the exception leaves the function. *)
Theorem missing_target_skipped dir u w :
  (files w !! target dir u = None ->
   exists w',
     patch dir u w = (Ok false, w') /\
     observe dir u w = (Ok SkippedMissing, w') /\
     files w' = files w /\
     stdout w' = stdout w ++ [missing_line (target dir u)] /\
     new_ops w w' = [OpExists (target dir u)]) /\
  (forall n,
     files w !! target dir u = Some n -> readable n = false ->
     exists w',
       patch dir u w = (Raise (OSError (target dir u)), w') /\
       files w' = files w /\
       new_ops w w' = [OpExists (target dir u)]).
Proof.
  split.
  - intros Hf. eexists. split; [exact (patch_missing dir u w Hf)|].
    split; [exact (observe_missing dir u w Hf)|].
    repeat split. apply new_ops_app.
  - intros n Hf Hr. eexists. split; [exact (patch_unreadable dir u w n Hf Hr)|].
    split; [reflexivity|]. apply new_ops_app.
Qed.

Lemma missing_target_skipped_witness :
  (exists w',
     patch Sample.dir Mxfp4 Sample.empty_world = (Ok false, w') /\
     observe Sample.dir Mxfp4 Sample.empty_world = (Ok SkippedMissing, w') /\
     files w' = files Sample.empty_world /\
     stdout w' = stdout Sample.empty_world ++ [missing_line (target Sample.dir Mxfp4)] /\
     new_ops Sample.empty_world w' = [OpExists (target Sample.dir Mxfp4)]) /\
  (exists w',
     patch Sample.dir Mxfp4 (Sample.only Mxfp4 Sample.locked)
       = (Raise (OSError (target Sample.dir Mxfp4)), w') /\
     files w' = files (Sample.only Mxfp4 Sample.locked) /\
     new_ops (Sample.only Mxfp4 Sample.locked) w' = [OpExists (target Sample.dir Mxfp4)]).
Proof.
  split.
  - apply (proj1 (missing_target_skipped Sample.dir Mxfp4 Sample.empty_world)).
    vm_compute. reflexivity.
  - apply (proj2 (missing_target_skipped Sample.dir Mxfp4 (Sample.only Mxfp4 Sample.locked))
             Sample.locked); vm_compute; reflexivity.
Defined.

(** C7 as stated fails: the path below exists and is not readable, and the
    function does not return skipped-missing, it raises. *)
Lemma unreadable_target_raises :
  let w := Sample.only Mxfp4 Sample.locked in
  present w (target Sample.dir Mxfp4) = true /\
  readable Sample.locked = false /\
  fst (patch Sample.dir Mxfp4 w) = Raise (OSError (target Sample.dir Mxfp4)) /\
  fst (observe Sample.dir Mxfp4 w) <> Ok SkippedMissing.
Proof. vm_compute. repeat split. discriminate. Qed.

(** The rule of [patch_mxfp4] on the text as it was read: the occurrence is
    patched in place, between what stood before it and what stood behind
    it. *)
Lemma cap_check_as_read dir w n a b :
  files w !! target dir Mxfp4 = Some n ->
  readable n = true ->
  writable n = true ->
  universal_newlines (data n) = a +:+ "if cap < (11, 0):" +:+ b ->
  contains "<= (12, 1)" (a +:+ "if cap < (11, 0):" +:+ b) = false ->
  exists w',
    observe dir Mxfp4 w = (Ok Applied, w') /\
    patch dir Mxfp4 w = (Ok true, w') /\
    files w' !! target dir Mxfp4 =
      Some (Node (re_sub mxfp4_old_pattern mxfp4_new_pattern a
                  +:+ "if cap <= (12, 1):"
                  +:+ re_sub mxfp4_old_pattern mxfp4_new_pattern b)
                 (readable n) (writable n)) /\
    (re_search mxfp4_old_pattern a = false ->
     re_search mxfp4_old_pattern b = false ->
     files w' !! target dir Mxfp4 =
       Some (Node (a +:+ "if cap <= (12, 1):" +:+ b) (readable n) (writable n))).
Proof.
  intros Hf Hr Hw Hc Hm.
  assert (Ha : already_applied Mxfp4 (universal_newlines (data n)) = false)
    by (rewrite Hc; exact Hm).
  assert (Hfound : re_search mxfp4_old_pattern (universal_newlines (data n)) = true).
  { rewrite Hc, mxfp4_search. apply contains_append_l, contains_append_r. reflexivity. }
  assert (Hrun : run_rules (rules Mxfp4) (universal_newlines (data n)) =
                 (re_sub mxfp4_old_pattern mxfp4_new_pattern (universal_newlines (data n)),
                  1%nat)).
  { cbn [rules]. rewrite run_rules_cons. unfold step.
    now rewrite applies_regex, substitute_regex, Hfound. }
  destruct (patch_apply dir Mxfp4 w n Hf Hr Ha Hw) as (lines & Hp & Hcl).
  unfold rewritten, applied_count in *. rewrite Hrun in *. cbn [fst snd] in *.
  assert (Hfile : files (patched_world (target dir Mxfp4) n
                   (re_sub mxfp4_old_pattern mxfp4_new_pattern (universal_newlines (data n)))
                   lines w) !! target dir Mxfp4 =
                  Some (Node (re_sub mxfp4_old_pattern mxfp4_new_pattern a
                              +:+ "if cap <= (12, 1):"
                              +:+ re_sub mxfp4_old_pattern mxfp4_new_pattern b)
                             (readable n) (writable n))).
  { cbn [files patched_world]. rewrite lookup_insert_eq. do 2 f_equal.
    rewrite Hc, !mxfp4_sub. apply cap_check_rewritten. }
  eexists. split; [|split; [exact Hp|split; [exact Hfile|]]].
  - erewrite observe_ok by exact Hp. cbn [stdout patched_world].
    now rewrite drop_app_length, Hcl.
  - intros Hna Hnb. rewrite Hfile, !mxfp4_sub. rewrite mxfp4_search in Hna, Hnb.
    now rewrite !replace_absent by (discriminate || assumption).
Qed.

(** C8, as the code has it.  A file that holds [if cap < (11, 0):] and not
    the marker [<= (12, 1)]: [patch_mxfp4] applies its rule, the outcome is
    applied, and the file then reads [if cap <= (12, 1):] at that place,
    between the text that stood before it and the text that stood behind
    it, each as text mode reads it and with its own occurrences of the
    pattern replaced.  Where they hold no occurrence they stand as they
    were read; they stand as they were stored, blanks and line ends
    included, when the file holds no carriage return. *)
Theorem cap_check_patched dir w n a b :
  files w !! target dir Mxfp4 = Some n ->
  readable n = true ->
  writable n = true ->
  data n = a +:+ "if cap < (11, 0):" +:+ b ->
  contains "<= (12, 1)" (data n) = false ->
  exists w',
    observe dir Mxfp4 w = (Ok Applied, w') /\
    patch dir Mxfp4 w = (Ok true, w') /\
    files w' !! target dir Mxfp4 =
      Some (Node (re_sub mxfp4_old_pattern mxfp4_new_pattern (universal_newlines a)
                  +:+ "if cap <= (12, 1):"
                  +:+ re_sub mxfp4_old_pattern mxfp4_new_pattern (universal_newlines b))
                 (readable n) (writable n)) /\
    (re_search mxfp4_old_pattern a = false ->
     re_search mxfp4_old_pattern b = false ->
     files w' !! target dir Mxfp4 =
       Some (Node (universal_newlines a +:+ "if cap <= (12, 1):" +:+ universal_newlines b)
                  (readable n) (writable n))) /\
    (has_cr (data n) = false ->
     re_search mxfp4_old_pattern a = false ->
     re_search mxfp4_old_pattern b = false ->
     files w' !! target dir Mxfp4 =
       Some (Node (a +:+ "if cap <= (12, 1):" +:+ b) (readable n) (writable n))).
Proof.
  intros Hf Hr Hw Hd Hm.
  assert (Hread : universal_newlines (data n) =
                  universal_newlines a +:+ "if cap < (11, 0):" +:+ universal_newlines b).
  { rewrite Hd, universal_newlines_app by reflexivity.
    now rewrite universal_newlines_keeps by reflexivity. }
  assert (Hm' : contains "<= (12, 1)"
                  (universal_newlines a +:+ "if cap < (11, 0):" +:+ universal_newlines b)
                = false).
  { rewrite <- Hread, contains_universal; [exact Hm | discriminate | reflexivity..]. }
  destruct (cap_check_as_read dir w n (universal_newlines a) (universal_newlines b)
              Hf Hr Hw Hread Hm') as (w' & Ho & Hp & Hfile & Hclean).
  assert (Hsearch : forall x, re_search mxfp4_old_pattern x = false ->
                      re_search mxfp4_old_pattern (universal_newlines x) = false).
  { intros x Hx. rewrite mxfp4_search in *.
    rewrite contains_universal; [exact Hx | discriminate | reflexivity..]. }
  exists w'. split; [exact Ho|]. split; [exact Hp|]. split; [exact Hfile|].
  split; [intros Ha Hb; apply Hclean; now apply Hsearch|].
  intros Hcr Ha Hb. rewrite Hd, !has_cr_append in Hcr.
  apply orb_false_iff in Hcr as [Hcra Hcr]. apply orb_false_iff in Hcr as [_ Hcrb].
  specialize (Hclean (Hsearch a Ha) (Hsearch b Hb)).
  now rewrite (universal_newlines_id a Hcra), (universal_newlines_id b Hcrb) in Hclean.
Qed.

Lemma cap_check_patched_witness :
  let n := Sample.file Sample.cap_line in
  let w := Sample.only Mxfp4 n in
  exists w',
    observe Sample.dir Mxfp4 w = (Ok Applied, w') /\
    patch Sample.dir Mxfp4 w = (Ok true, w') /\
    files w' !! target Sample.dir Mxfp4 =
      Some (Node (re_sub mxfp4_old_pattern mxfp4_new_pattern (universal_newlines "    ")
                  +:+ "if cap <= (12, 1):"
                  +:+ re_sub mxfp4_old_pattern mxfp4_new_pattern (universal_newlines nl))
                 (readable n) (writable n)) /\
    (re_search mxfp4_old_pattern "    " = false ->
     re_search mxfp4_old_pattern nl = false ->
     files w' !! target Sample.dir Mxfp4 =
       Some (Node (universal_newlines "    " +:+ "if cap <= (12, 1):" +:+ universal_newlines nl)
                  (readable n) (writable n))) /\
    (has_cr (data n) = false ->
     re_search mxfp4_old_pattern "    " = false ->
     re_search mxfp4_old_pattern nl = false ->
     files w' !! target Sample.dir Mxfp4 =
       Some (Node ("    " +:+ "if cap <= (12, 1):" +:+ nl) (readable n) (writable n))).
Proof.
  intros n w.
  apply (cap_check_patched Sample.dir w n "    " nl); vm_compute; reflexivity.
Defined.

(** C8 as stated fails: the file below holds the line and not the marker,
    the outcome is applied, and the line end behind the patched line is not
    the one that was stored: [\r\n] has become [\n]. *)
Lemma cap_check_changes_crlf_line_end :
  let w := Sample.only Mxfp4 (Sample.file Sample.crlf_cap_line) in
  let w' := snd (patch Sample.dir Mxfp4 w) in
  Sample.crlf_cap_line = "    " +:+ "if cap < (11, 0):" +:+ String CR nl /\
  contains "<= (12, 1)" Sample.crlf_cap_line = false /\
  fst (observe Sample.dir Mxfp4 w) = Ok Applied /\
  files w' !! target Sample.dir Mxfp4 =
    Some (Sample.file ("    " +:+ "if cap <= (12, 1):" +:+ nl)) /\
  "    " +:+ "if cap <= (12, 1):" +:+ nl <> "    " +:+ "if cap <= (12, 1):" +:+ String CR nl.
Proof. vm_compute. repeat split. discriminate. Qed.

(** C9.  With files that open, each of the four functions returns [False] if
    and only if its target does not exist: an existing file gives [True]
    whether it gets patched, was patched already, or holds no pattern at all.
    Hence [main] returns 0 exactly when the four targets exist. *)
Theorem false_iff_target_missing dir w :
  io_ok dir w ->
  (forall u, exists b w',
      patch dir u w = (Ok b, w') /\ (b = false <-> files w !! target dir u = None)) /\
  (exists status w',
      main dir w = (Ok status, w') /\
      (status = 0%Z <-> forall u, files w !! target dir u <> None)).
Proof.
  intros Hio. split.
  - intros u. destruct (patch_run dir u w) as (r & w' & Hp & Hu).
    pose proof (unit_run_io_ok dir u w r w' Hio Hu) as ->.
    eexists _, w'. split; [exact Hp|]. unfold present.
    destruct (files w !! target dir u); split; congruence.
  - destruct (banner_run dir w) as (w0 & Hb & Hf0 & _).
    assert (Hio0 : io_ok dir w0) by (intros u n; rewrite Hf0; apply Hio).
    destruct (run_units_io_ok dir units w0 Hio0) as (w1 & Hr & _).
    destruct (conclude_run
                (combine (map file_name units)
                         (map (fun u => present w0 (target dir u)) units)) w1)
      as (w2 & Hc & _).
    eexists _, w2. split.
    + rewrite main_eq. erewrite bind_ok by exact Hb.
      erewrite bind_ok by exact Hr. exact Hc.
    + unfold present. rewrite Hf0. cbn [units map combine forallb snd].
      split.
      * intros H u.
        destruct (files w !! target dir CustomOps) eqn:E1; [|discriminate].
        destruct (files w !! target dir Mxfp4) eqn:E2; [|discriminate].
        destruct (files w !! target dir W8a8Utils) eqn:E3; [|discriminate].
        destruct (files w !! target dir MatcherUtils) eqn:E4; [|discriminate].
        destruct u; congruence.
      * intros H.
        pose proof (H CustomOps). pose proof (H Mxfp4).
        pose proof (H W8a8Utils). pose proof (H MatcherUtils).
        destruct (files w !! target dir CustomOps); [|congruence].
        destruct (files w !! target dir Mxfp4); [|congruence].
        destruct (files w !! target dir W8a8Utils); [|congruence].
        destruct (files w !! target dir MatcherUtils); [|congruence].
        reflexivity.
Qed.

Lemma false_iff_target_missing_witness :
  io_ok Sample.dir Sample.fresh_checkout /\
  (forall u, exists b w',
      patch Sample.dir u Sample.fresh_checkout = (Ok b, w') /\
      (b = false <-> files Sample.fresh_checkout !! target Sample.dir u = None)) /\
  (exists status w',
      main Sample.dir Sample.fresh_checkout = (Ok status, w') /\
      (status = 0%Z <->
       forall u, files Sample.fresh_checkout !! target Sample.dir u <> None)).
Proof.
  split; [exact fresh_checkout_io_ok|].
  apply (false_iff_target_missing Sample.dir Sample.fresh_checkout).
  exact fresh_checkout_io_ok.
Defined.




(** * Further properties of the script *)

(** ** What the functions touch *)

Lemma run_units_shape dir us :
  forall w r w', run_units dir us w = (r, w') -> same_shape w w'.
Proof.
  induction us as [|u us IH]; intros w r w' H.
  - injection H as <- <-. apply same_shape_refl.
  - cbn [run_units] in H. unfold bind at 1 in H.
    destruct (patch dir u w) as [[b|e] w1] eqn:Hp; apply patch_run_inv in Hp;
      apply unit_run_shape in Hp.
    + unfold bind at 1 in H. destruct (run_units dir us w1) as [r2 w2] eqn:Hr.
      assert (w' = w2) as -> by (destruct r2; now injection H).
      eapply same_shape_trans; [exact Hp | exact (IH w1 r2 w2 Hr)].
    + now injection H as <- <-.
Qed.


Lemma unit_run_no_write dir u w r w' :
  unit_run dir u w r w' ->
  exists os, ops w' = ops w ++ os /\ (List.filter is_write os = [] -> files w' = files w).
Proof.
  destruct 1; cbn [ops files checked_world read_world patched_world record];
    eexists; (split; [reflexivity|]); cbn [List.filter is_write];
    try reflexivity; discriminate.
Qed.

Lemma run_units_no_write dir us :
  forall w r w',
    run_units dir us w = (r, w') ->
    exists os, ops w' = ops w ++ os /\ (List.filter is_write os = [] -> files w' = files w).
Proof.
  induction us as [|u us IH]; intros w r w' H.
  - injection H as <- <-. exists []. now rewrite app_nil_r.
  - rewrite run_units_cons in H.
    destruct (patch dir u w) as [[b|e] w1] eqn:Hp; apply patch_run_inv in Hp;
      apply unit_run_no_write in Hp as (os1 & Ho1 & Hf1).
    + destruct (run_units dir us w1) as [r2 w2] eqn:Hr.
      assert (w' = w2) as -> by (destruct r2; now injection H).
      destruct (IH w1 r2 w2 Hr) as (os2 & Ho2 & Hf2).
      exists (os1 ++ os2). split; [now rewrite Ho2, Ho1, app_assoc|].
      rewrite List.filter_app. intros E. apply app_eq_nil in E as [E1 E2].
      now rewrite (Hf2 E2), (Hf1 E1).
    + injection H as <- <-. now exists os1.
Qed.

(** X2.  A run of [main], whether it returns or an exception ends it,
    creates and removes no path and changes no permission, and it calls
    [os.path.exists] and [open] on the paths of the four targets only.  A
    run without a write leaves the files as they were. *)
Theorem main_confined_to_targets dir w :
  let w' := snd (main dir w) in
  same_shape w w' /\
  (forall q, (forall u, q <> target dir u) ->
     Forall (fun o => op_path o <> q) (new_ops w w')) /\
  (List.filter is_write (new_ops w w') = [] -> files w' = files w).
Proof.
  intros w'. subst w'. rewrite main_eq.
  destruct (banner_run dir w) as (w0 & Hb & Hf0 & Ho0 & _).
  erewrite bind_ok by exact Hb. unfold bind.
  destruct (run_units dir units w0) as [r w1] eqn:Hr.
  pose proof (run_units_shape dir units w0 r w1 Hr) as Hs.
  assert (Hs0 : same_shape w w1).
  { eapply same_shape_trans; [apply same_shape_files; exact Hf0 | exact Hs]. }
  assert (Hframe : forall q, (forall u, q <> target dir u) ->
            Forall (fun o => op_path o <> q) (new_ops w w1)).
  { intros q Hq.
    destruct (run_units_frame dir units w0 r w1 Hr q (fun u _ => Hq u))
      as (_ & os & Hos & Hall).
    unfold new_ops. now rewrite Hos, Ho0, new_ops_app. }
  assert (Hnw : List.filter is_write (new_ops w w1) = [] -> files w1 = files w).
  { destruct (run_units_no_write dir units w0 r w1 Hr) as (os & Hos & Hfs).
    unfold new_ops. rewrite Hos, Ho0, new_ops_app. intros E. now rewrite (Hfs E). }
  destruct r as [bs|e]; cbv beta iota; [|cbn [snd]; now repeat split].
  destruct (conclude_run (combine (map file_name units) bs) w1) as (w2 & Hc & Hf2 & Ho2).
  rewrite Hc. cbn [snd]. unfold new_ops in *. rewrite Ho2, Hf2. split; [|now split].
  eapply same_shape_trans; [exact Hs0 | now apply same_shape_files].
Qed.

(** X3.  Whatever the environment holds, the four functions work on four
    different paths.  Each is [VLLM_DIR] followed by the relative path of
    the file when [VLLM_DIR] is empty or ends with ["/"], and [VLLM_DIR],
    ["/"] and the relative path otherwise: no relative path is absolute, so
    [os.path.join] never drops [VLLM_DIR].  Without the variable the paths
    lie under [/build/vllm]. *)
Theorem targets_apart_under_dir (environ : gmap string string) :
  let d := vllm_dir environ in
  (forall u v, target d u = target d v -> u = v) /\
  (forall u, d = EmptyString \/ endswith "/" d = true ->
     target d u = d +:+ target_rel u) /\
  (forall u, d <> EmptyString -> endswith "/" d = false ->
     target d u = d +:+ "/" +:+ target_rel u) /\
  (environ !! "VLLM_DIR" = None ->
   forall u, target d u = "/build/vllm/" +:+ target_rel u) /\
  (forall v, environ !! "VLLM_DIR" = Some v -> d = v).
Proof.
  intros d.
  assert (Hrel : forall u, startswith "/" (target_rel u) = false) by now intros [].
  split; [intros u v; apply target_inj|].
  split.
  { intros u Hd. unfold target, path_join. rewrite Hrel.
    destruct Hd as [->| ->]; [reflexivity | now rewrite orb_true_r]. }
  split.
  { intros u Hne He. unfold target, path_join. rewrite Hrel, He.
    destruct (String.eqb_spec d EmptyString); [contradiction | reflexivity]. }
  split.
  { intros Hnone u. subst d. unfold vllm_dir. rewrite Hnone. now destruct u. }
  intros v Hv. subst d. unfold vllm_dir. now rewrite Hv.
Qed.

(** ** The exit status *)










(** ** A function and its target *)



(** ** A second run after the first rule was applied *)

(** X7.  The marker of every function lies in the replacement of its first
    rule, and no later rule removes it: when the first rule was applied,
    whatever the others did, a second run finds the marker, reports the skip
    and writes nothing. *)
Theorem rerun_skips_after_first_rule dir u w n r rs :
  files w !! target dir u = Some n ->
  readable n = true ->
  writable n = true ->
  already_applied u (universal_newlines (data n)) = false ->
  rules u = r :: rs ->
  applies r (universal_newlines (data n)) = true ->
  let w1 := snd (patch dir u w) in
  exists w2,
    observe dir u w1 = (Ok SkippedAlreadyApplied, w2) /\
    files w2 = files w1 /\
    new_ops w1 w2 = [OpExists (target dir u); OpRead (target dir u)].
Proof.
  intros Hf Hr Hw Ha Hrules Happ w1. subst w1.
  destruct (patch_apply dir u w n Hf Hr Ha Hw) as (lines & Hp & _). rewrite Hp. cbn [snd].
  set (c := universal_newlines (data n)) in *.
  assert (Hm : already_applied u (rewritten u c) = true).
  { pose proof (first_rule_marks u c) as Hfirst.
    pose proof (later_rules_keep_marker u (step c r)) as Hlater.
    unfold rewritten. rewrite Hrules in *. rewrite run_rules_cons. cbn [fst]. auto. }
  set (c' := rewritten u c) in *.
  set (w1 := patched_world (target dir u) n c' lines w).
  assert (Hf1 : files w1 !! target dir u = Some (Node c' (readable n) (writable n)))
    by apply lookup_insert_eq.
  assert (Ha1 : already_applied u (universal_newlines c') = true)
    by (unfold c', c; now rewrite rewritten_reads_back).
  eexists. split.
  - apply (observe_skip dir u w1 _ Hf1); [exact Hr | exact Ha1].
  - split; [reflexivity | apply new_ops_app].
Qed.

Lemma rerun_skips_after_first_rule_witness :
  let n := Sample.file (custom_ops_old +:+ nl) in
  let w := Sample.only CustomOps n in
  let w1 := snd (patch Sample.dir CustomOps w) in
  fst (observe Sample.dir CustomOps w) = Ok AppliedPartial /\
  exists w2,
    observe Sample.dir CustomOps w1 = (Ok SkippedAlreadyApplied, w2) /\
    files w2 = files w1 /\
    new_ops w1 w2 = [OpExists (target Sample.dir CustomOps); OpRead (target Sample.dir CustomOps)].
Proof.
  intros n w w1. split; [vm_compute; reflexivity|].
  apply (rerun_skips_after_first_rule Sample.dir CustomOps w n
           (Rule custom_ops_old custom_ops_new false false)
           [Rule custom_ops_old2 custom_ops_new2 false false]);
    vm_compute; reflexivity.
Defined.

(** ** What [main] prints *)

Lemma run_units_stdout dir us :
  forall w r w', run_units dir us w = (r, w') -> exists lines, stdout w' = stdout w ++ lines.
Proof.
  induction us as [|u us IH]; intros w r w' H.
  - injection H as <- <-. exists []. now rewrite app_nil_r.
  - rewrite run_units_cons in H.
    destruct (patch dir u w) as [[b|e] w1] eqn:Hp; apply patch_run_inv in Hp;
      apply unit_run_stdout in Hp as [l1 Hl1].
    + destruct (run_units dir us w1) as [r2 w2] eqn:Hr.
      assert (w' = w2) as -> by (destruct r2; now injection H).
      destruct (IH w1 r2 w2 Hr) as [l2 Hl2]. exists (l1 ++ l2).
      now rewrite Hl2, Hl1, app_assoc.
    + injection H as <- <-. now exists l1.
Qed.

Lemma conclude_stdout results w :
  stdout (snd (conclude results w)) =
    stdout w ++ [EmptyString; times "=" 60; "Summary:"] ++ map summary_line results
    ++ [final_line (map fst (List.filter (fun entry => negb (snd entry)) results))].
Proof.
  unfold conclude. msteps. erewrite bind_ok by apply for_each_print.
  destruct (map fst (List.filter _ results)) as [|name failed]; msteps;
    unfold ret, emits, emit, final_line; cbn [snd stdout];
    rewrite <- !app_assoc; reflexivity.
Qed.

Lemma combine_maps {A B C : Type} (f : A -> B) (g : A -> C) (l : list A) :
  combine (map f l) (map g l) = map (fun x => (f x, g x)) l.
Proof. induction l as [|x l IH]; [reflexivity|]. cbn. now rewrite IH. Qed.

Lemma failed_names {A : Type} (f : A -> string) (g : A -> bool) (l : list A) :
  map fst (List.filter (fun entry => negb (snd entry)) (map (fun x => (f x, g x)) l)) =
  map f (List.filter (fun x => negb (g x)) l).
Proof.
  induction l as [|x l IH]; [reflexivity|].
  cbn [map List.filter snd]. destruct (g x); cbn [negb map fst]; now rewrite IH.
Qed.

(** X8.  When [main] returns, the console holds, after what was there: the
    banner with [VLLM_DIR], the lines of the four functions, the summary
    header, one line per file in the order of the calls, [OK] exactly for
    the targets that exist, and a last line that names the files whose
    target is missing, or reports success when there is none. *)
Theorem summary_lists_missing_files dir w status w' :
  main dir w = (Ok status, w') ->
  exists unit_lines,
    stdout w' =
      stdout w
      ++ [times "=" 60; "Applying vLLM PR #31607 patches for SM 12.1 (Blackwell GB10)";
          times "=" 60; "VLLM_DIR: " +:+ dir; EmptyString]
      ++ unit_lines
      ++ [EmptyString; times "=" 60; "Summary:"]
      ++ map (fun u => summary_line (file_name u, present w (target dir u))) units
      ++ [final_line (map file_name
                        (List.filter (fun u => negb (present w (target dir u))) units))].
Proof.
  intros H. rewrite main_eq in H.
  assert (Hb : banner dir w =
    (Ok tt, emits [times "=" 60;
                   "Applying vLLM PR #31607 patches for SM 12.1 (Blackwell GB10)";
                   times "=" 60; "VLLM_DIR: " +:+ dir; EmptyString] w)).
  { unfold banner. msteps. unfold print, emits, emit. cbn [files stdout ops].
    now rewrite <- !app_assoc. }
  erewrite bind_ok in H by exact Hb. unfold bind in H.
  destruct (run_units dir units _) as [[bs|e] w1] eqn:Hr; [|discriminate].
  destruct (run_units_stdout dir units _ _ _ Hr) as [unit_lines Hl].
  apply run_units_present in Hr. cbn [files emits] in Hr.
  fold (present w) in Hr.
  exists unit_lines.
  replace w' with (snd (conclude (combine (map file_name units) bs) w1)) by now rewrite H.
  rewrite conclude_stdout, Hl. cbn [stdout emits].
  rewrite Hr, combine_maps, failed_names, map_map.
  now rewrite <- !app_assoc.
Qed.

Lemma summary_lists_missing_files_witness :
  let w := Sample.half_checkout in
  let w' := snd (main Sample.dir w) in
  fst (main Sample.dir w) = Ok 1 /\
  exists unit_lines,
    stdout w' =
      stdout w
      ++ [times "=" 60; "Applying vLLM PR #31607 patches for SM 12.1 (Blackwell GB10)";
          times "=" 60; "VLLM_DIR: " +:+ Sample.dir; EmptyString]
      ++ unit_lines
      ++ [EmptyString; times "=" 60; "Summary:"]
      ++ map (fun u => summary_line (file_name u, present w (target Sample.dir u))) units
      ++ [final_line (map file_name
                        (List.filter (fun u => negb (present w (target Sample.dir u))) units))].
Proof.
  intros w w'. split; [vm_compute; reflexivity|].
  apply (summary_lists_missing_files Sample.dir w 1 w'). vm_compute. reflexivity.
Defined.

(** ** A write that fails *)

(** X9.  A target that opens for reading and not for writing, and holds no
    marker: the function goes through its rules and prints what it patched
    in memory, as a run that succeeds would; then [open] raises, nothing is
    stored, and the target was checked and read and not written. *)
Theorem write_failure_after_report dir u w n :
  files w !! target dir u = Some n ->
  readable n = true ->
  writable n = false ->
  already_applied u (universal_newlines (data n)) = false ->
  exists w',
    patch dir u w = (Raise (OSError (target dir u)), w') /\
    files w' = files w /\
    new_ops w w' = [OpExists (target dir u); OpRead (target dir u)] /\
    classify (length (rules u)) true (drop (length (stdout w)) (stdout w')) =
      outcome_of_count (applied_count u (universal_newlines (data n))) (length (rules u)).
Proof.
  intros Hf Hr Hw Ha.
  destruct (patch_unwritable_lines dir u w n Hf Hr Ha Hw) as (lines & Hp & Hc).
  eexists. split; [exact Hp|]. split; [reflexivity|].
  split; [apply new_ops_app|].
  cbn [stdout read_world]. now rewrite drop_app_length.
Qed.

Lemma write_failure_after_report_witness :
  let n := Sample.read_only Sample.cap_line in
  let w := Sample.only Mxfp4 n in
  exists w',
    patch Sample.dir Mxfp4 w = (Raise (OSError (target Sample.dir Mxfp4)), w') /\
    files w' = files w /\
    new_ops w w' = [OpExists (target Sample.dir Mxfp4); OpRead (target Sample.dir Mxfp4)] /\
    classify (length (rules Mxfp4)) true (drop (length (stdout w)) (stdout w')) =
      outcome_of_count (applied_count Mxfp4 (universal_newlines (data n)))
                       (length (rules Mxfp4)).
Proof.
  intros n w.
  apply (write_failure_after_report Sample.dir Mxfp4 w n); vm_compute; reflexivity.
Defined.

(** ** What a replacement leaves of the pattern *)

(** A text in which [p] cannot begin can be passed over in the search for
    [p]. *)
Lemma contains_skip p m x :
  no_suffix_agrees m p = true -> contains p (m +:+ x) = contains p x.
Proof.
  induction m as [|a m IH]; intros H; [reflexivity|].
  cbn [no_suffix_agrees] in H. apply andb_true_iff in H as [H1 H2].
  apply negb_true_iff in H1.
  rewrite append_cons. simpl contains. rewrite (IH H2).
  destruct (startswith p (String a (m +:+ x))) eqn:E; [|reflexivity].
  rewrite <- append_cons in E. apply startswith_agree in E.
  rewrite agree_sym in E. congruence.
Qed.

Section ReplaceAgain.

Variables old new : string.
Hypothesis old_nonempty : old <> EmptyString.

Implicit Types (s p : string).

(** Where the result of the replacement starts with [p], and [p] cannot
    reach into [new], the text started with [p]. *)
Lemma startswith_replace_back s :
  forall p, no_suffix_agrees p new = true ->
    startswith p (replace old new s) = true -> startswith p s = true.
Proof.
  induction s as [|c s IH]; intros p Hp H.
  - now rewrite replace_empty in H.
  - destruct p as [|a p]; [reflexivity|].
    cbn [no_suffix_agrees] in Hp. apply andb_true_iff in Hp as [Hp1 Hp2].
    apply negb_true_iff in Hp1.
    destruct (startswith old (String c s)) eqn:E.
    + apply startswith_spec in E as [r Hr]. rewrite Hr, replace_hit in H by exact old_nonempty.
      apply startswith_agree in H. congruence.
    + rewrite replace_miss in H by assumption. simpl in H |- *.
      apply andb_true_iff in H as [Hac H]. rewrite Hac. cbn [andb]. now apply IH.
Qed.

(** When [p] and [new] cannot overlap, and [p] occurs in the text only where
    [old] does, no [p] is left. *)
Lemma replace_leaves_none p :
  clean p new = true ->
  forall n s, (String.length s <= n)%nat ->
    (forall a b, s = a +:+ b -> startswith p b = true -> startswith old b = true) ->
    contains p (replace old new s) = false.
Proof.
  intros Hc. apply andb_true_iff in Hc as [Hp Hn].
  destruct (old_cons old old_nonempty) as (o & old' & Ho).
  induction n as [|n IH]; intros s Hlen Hs.
  - destruct s; [|simpl in Hlen; lia]. rewrite replace_empty by exact old_nonempty.
    simpl. destruct (startswith p EmptyString) eqn:E; [|reflexivity].
    apply (Hs EmptyString EmptyString eq_refl) in E. rewrite Ho in E. discriminate E.
  - destruct s as [|c s].
    { rewrite replace_empty by exact old_nonempty.
      simpl. destruct (startswith p EmptyString) eqn:E; [|reflexivity].
      apply (Hs EmptyString EmptyString eq_refl) in E. rewrite Ho in E. discriminate E. }
    destruct (startswith old (String c s)) eqn:E.
    + apply startswith_spec in E as [r Hr]. rewrite Hr in *.
      rewrite replace_hit by exact old_nonempty.
      rewrite contains_skip by exact Hn. apply IH.
      * rewrite append_length, Ho in Hlen. simpl in Hlen. lia.
      * intros a b -> Hb. apply (Hs (old +:+ a) b); [now rewrite append_assoc | exact Hb].
    + assert (Hst : startswith p (replace old new (String c s)) = false).
      { destruct (startswith p (replace old new (String c s))) eqn:E2; [|reflexivity].
        apply startswith_replace_back in E2; [|exact Hp].
        apply (Hs EmptyString (String c s) eq_refl) in E2. congruence. }
      rewrite replace_miss in * by assumption.
      simpl contains. rewrite Hst. cbn [orb]. apply IH; [simpl in Hlen; lia|].
      intros a b -> Hb. now apply (Hs (String c a) b).
Qed.

(** No occurrence of [old] is left when [old] and [new] cannot overlap. *)
Lemma replace_removes s :
  clean old new = true -> contains old (replace old new s) = false.
Proof.
  intros Hc. apply (replace_leaves_none old Hc (String.length s) s (Nat.le_refl _)).
  auto.
Qed.

(** Nor does the replacement make an occurrence of another text [p] that
    cannot overlap [new]. *)
Lemma replace_creates_none p s :
  clean p new = true -> contains p s = false -> contains p (replace old new s) = false.
Proof.
  intros Hc Hs. apply (replace_leaves_none p Hc (String.length s) s (Nat.le_refl _)).
  intros a b -> Hb. apply startswith_spec in Hb as [r ->].
  now rewrite contains_intro in Hs.
Qed.

(** A longer replacement makes the text longer, strictly so when the
    pattern occurs. *)
Lemma replace_grows :
  (String.length old < String.length new)%nat ->
  forall n s, (String.length s <= n)%nat ->
    (String.length s <= String.length (replace old new s))%nat /\
    (contains old s = true -> (String.length s < String.length (replace old new s))%nat).
Proof.
  intros Hlen. destruct (old_cons old old_nonempty) as (o & old' & Ho).
  induction n as [|n IH]; intros s Hs.
  - destruct s; [|simpl in Hs; lia]. rewrite replace_empty by exact old_nonempty.
    split; [lia|]. simpl. rewrite Ho. discriminate.
  - destruct s as [|c s].
    { rewrite replace_empty by exact old_nonempty.
      split; [lia|]. simpl. rewrite Ho. discriminate. }
    destruct (startswith old (String c s)) eqn:E.
    + apply startswith_spec in E as [r Hr]. rewrite Hr in *.
      rewrite replace_hit by exact old_nonempty. rewrite !append_length in *.
      destruct (IH r) as [IH1 _]; [rewrite Ho in Hs; simpl in Hs; lia|].
      split; [lia|]. intros _. lia.
    + rewrite replace_miss by assumption. simpl String.length.
      destruct (IH s) as [IH1 IH2]; [simpl in Hs; lia|].
      split; [lia|]. simpl contains. rewrite E. cbn [orb]. intros H. apply IH2 in H. lia.
Qed.

End ReplaceAgain.

Section ReplaceLonger.

Variables old t : string.
Hypothesis old_nonempty : old <> EmptyString.

(** When the replacement begins with the pattern, the result begins as the
    text does, as far as the pattern reaches. *)
Lemma startswith_replace_longer s :
  forall p, (String.length p <= String.length old)%nat ->
    startswith p (replace old (old +:+ t) s) = startswith p s.
Proof.
  induction s as [|c s IH]; intros p Hlen.
  - now rewrite replace_empty.
  - destruct (startswith old (String c s)) eqn:E.
    + apply startswith_spec in E as [r Hr]. rewrite Hr, replace_hit by exact old_nonempty.
      rewrite append_assoc. now rewrite !startswith_short.
    + rewrite replace_miss by assumption. destruct p as [|a p]; [reflexivity|].
      simpl. f_equal. apply IH. simpl in Hlen. lia.
Qed.

(** The piece before the first occurrence is the same before and after. *)
Lemma split_scan_head_replace s :
  forall acc, exists x rest rest',
    split_scan old 0 acc (replace old (old +:+ t) s) = x :: rest /\
    split_scan old 0 acc s = x :: rest'.
Proof.
  destruct (old_cons old old_nonempty) as (o & old' & Ho).
  induction s as [|c s IH]; intros acc.
  - rewrite replace_empty by exact old_nonempty. now exists acc, [], [].
  - pose proof (startswith_replace_longer (String c s) old (Nat.le_refl _)) as HL.
    destruct (startswith old (String c s)) eqn:E.
    + destruct (replace old (old +:+ t) (String c s)) as [|c' s'] eqn:ER.
      { rewrite Ho in HL. discriminate HL. }
      cbn [split_scan]. rewrite HL, E. now eexists _, _, _.
    + rewrite replace_miss in * by assumption.
      cbn [split_scan]. rewrite HL, E. apply IH.
Qed.

Lemma line_of_replace s : line_of old (replace old (old +:+ t) s) = line_of old s.
Proof.
  assert (Hsplit : forall s', split old s' = Some (split_scan old 0 EmptyString s')).
  { intros s'. unfold split. destruct (old_cons old old_nonempty) as (o & old' & ->).
    reflexivity. }
  destruct (split_scan_head_replace s EmptyString) as (x & rest & rest' & H1 & H2).
  unfold line_of, line_before, py_split. rewrite !Hsplit, H1, H2.
  cbn [result_bind]. now rewrite !py_index_head.
Qed.

End ReplaceLonger.

(** ** Rules that are spent once applied *)

(** A rule whose replacement cannot overlap its pattern finds nothing in
    its own result. *)
Lemma step_spent r c :
  regex r = false -> guarded r = false -> search r <> EmptyString ->
  clean (search r) (replacement r) = true ->
  found r (step c r) = false.
Proof.
  destruct r as [o n rx g]. cbn [regex guarded search replacement].
  intros -> -> Hne Hc. unfold step. rewrite applies_plain.
  unfold found. cbn [regex search].
  destruct (contains o c) eqn:E; [|exact E].
  rewrite substitute_plain. now apply replace_removes.
Qed.

(** Nor does it make an occurrence of a text that cannot overlap its
    replacement. *)
Lemma step_creates_none p r c :
  regex r = false -> search r <> EmptyString ->
  clean p (replacement r) = true ->
  contains p c = false -> contains p (step c r) = false.
Proof.
  destruct r as [o n rx g]. cbn [regex search replacement].
  intros -> Hne Hc Hp. unfold step. destruct (applies _ c); [|exact Hp].
  rewrite substitute_plain. now apply replace_creates_none.
Qed.

Lemma mxfp4_step c :
  step c (Rule mxfp4_old_pattern mxfp4_new_pattern true false) =
  step c (Rule "< (11, 0)" "<= (12, 1)" false false).
Proof. reflexivity. Qed.

(** After [patch_custom_ops] or [patch_mxfp4] went through its rules, no
    pattern of the function is left. *)
Lemma patterns_gone u c r :
  u = CustomOps \/ u = Mxfp4 -> In r (rules u) -> found r (rewritten u c) = false.
Proof.
  unfold rewritten. intros [->| ->]; cbn [rules In]; rewrite ?run_rules_cons; cbn [run_rules fst].
  - intros [<-|[<-|[]]].
    + apply (step_creates_none custom_ops_old (Rule custom_ops_old2 custom_ops_new2 false false));
        [reflexivity | discriminate | vm_compute; reflexivity |].
      apply (step_spent (Rule custom_ops_old custom_ops_new false false));
        [reflexivity | reflexivity | discriminate | vm_compute; reflexivity].
    + apply (step_spent (Rule custom_ops_old2 custom_ops_new2 false false));
        [reflexivity | reflexivity | discriminate | vm_compute; reflexivity].
  - intros [<-|[]]. rewrite mxfp4_step.
    change (found (Rule mxfp4_old_pattern mxfp4_new_pattern true false))
      with (found (Rule "< (11, 0)" "<= (12, 1)" false false)).
    apply step_spent; [reflexivity | reflexivity | discriminate | vm_compute; reflexivity].
Qed.

(** X10.  After [patch_custom_ops] or [patch_mxfp4] has written its target,
    none of the patterns of the function occurs in the file: every
    occurrence was replaced, and no replacement made a new one.  The text
    written is read back as it is. *)
Theorem patterns_gone_after_patch dir u w n r :
  u = CustomOps \/ u = Mxfp4 ->
  files w !! target dir u = Some n ->
  readable n = true ->
  writable n = true ->
  already_applied u (universal_newlines (data n)) = false ->
  In r (rules u) ->
  exists w' content,
    patch dir u w = (Ok true, w') /\
    files w' !! target dir u = Some (Node content (readable n) (writable n)) /\
    found r content = false /\
    universal_newlines content = content.
Proof.
  intros Hu Hf Hr Hw Ha Hin.
  destruct (patch_apply dir u w n Hf Hr Ha Hw) as (lines & Hp & _).
  eexists _, _. split; [exact Hp|]. cbn [files patched_world].
  split; [apply lookup_insert_eq|]. split; [now apply patterns_gone|].
  apply rewritten_reads_back.
Qed.

Lemma patterns_gone_after_patch_witness :
  let n := Sample.file Sample.cap_line in
  let w := Sample.only Mxfp4 n in
  let r := Rule mxfp4_old_pattern mxfp4_new_pattern true false in
  found r (universal_newlines (data n)) = true /\
  exists w' content,
    patch Sample.dir Mxfp4 w = (Ok true, w') /\
    files w' !! target Sample.dir Mxfp4 = Some (Node content (readable n) (writable n)) /\
    found r content = false /\
    universal_newlines content = content.
Proof.
  intros n w r. split; [vm_compute; reflexivity|].
  apply (patterns_gone_after_patch Sample.dir Mxfp4 w n r);
    [right; reflexivity | vm_compute; reflexivity | reflexivity | reflexivity
    | vm_compute; reflexivity | left; reflexivity].
Defined.

(** X11.  For [patch_custom_ops] and [patch_mxfp4] a second run never
    changes the files the first run left, whatever the first run found:
    it skips, or fails as the first did, or writes the text it read. *)
Theorem second_run_changes_nothing dir u w :
  u = CustomOps \/ u = Mxfp4 ->
  let w1 := snd (patch dir u w) in
  files (snd (patch dir u w1)) = files w1.
Proof.
  intros Hu w1. subst w1.
  destruct (patch_run dir u w) as (r & w1 & Hp & Hrun). rewrite Hp. cbn [snd].
  destruct (patch_run dir u w1) as (r2 & w2 & Hp2 & Hrun2). rewrite Hp2. cbn [snd].
  destruct Hrun2 as [Hf2|n2 Hf2 Hr2|n2 Hf2 Hr2 Ha2|n2 lines2 Hf2 Hr2 Ha2 Hw2 Hc2|n2 lines2 Hf2 Hr2 Ha2 Hw2];
    try reflexivity.
  cbn [files patched_world]. apply insert_id. rewrite Hf2. f_equal.
  destruct Hrun as [Hf|n Hf Hr|n Hf Hr Ha|n lines Hf Hr Ha Hw Hc|n lines Hf Hr Ha Hw];
    cbn [files checked_world read_world patched_world record] in Hf2; try congruence.
  rewrite lookup_insert_eq in Hf2. injection Hf2 as <-. cbn [data readable writable].
  rewrite rewritten_reads_back. f_equal.
  set (c := rewritten u (universal_newlines (data n))).
  assert (Hnone : run_rules (rules u) c = (c, 0%nat)).
  { apply run_rules_none. intros r0 Hr0. now apply patterns_gone. }
  unfold rewritten at 1. now rewrite Hnone.
Qed.

Lemma second_run_changes_nothing_witness :
  let w := Sample.only CustomOps (Sample.file (custom_ops_old2 +:+ nl)) in
  let w1 := snd (patch Sample.dir CustomOps w) in
  fst (observe Sample.dir CustomOps w) = Ok AppliedPartial /\
  fst (observe Sample.dir CustomOps w1) = Ok NoOp /\
  files (snd (patch Sample.dir CustomOps w1)) = files w1.
Proof.
  intros w w1. split; [vm_compute; reflexivity|]. split; [vm_compute; reflexivity|].
  apply (second_run_changes_nothing Sample.dir CustomOps w). left. reflexivity.
Defined.

(** ** Rules that apply to their own result *)

(** A rule whose replacement holds its pattern, and begins with it when the
    rule looks for [hasattr] before the pattern, applies again to what it
    produced. *)
Lemma applies_again r c :
  regex r = false -> search r <> EmptyString ->
  contains (search r) (replacement r) = true ->
  (guarded r = true -> exists t, replacement r = search r +:+ t) ->
  applies r c = true -> applies r (substitute r c) = true.
Proof.
  destruct r as [o n rx g]. cbn [regex guarded search replacement].
  intros -> Hne Hcn Hg. rewrite substitute_plain.
  unfold applies, found. cbn [regex guarded search].
  intros H. apply andb_true_iff in H as [Hc Hl]. apply andb_true_iff. split.
  - eapply contains_trans; [exact Hcn | now apply replace_present].
  - destruct g; [|reflexivity]. destruct (Hg eq_refl) as [t ->].
    now rewrite line_of_replace.
Qed.

Lemma step_grows r c :
  regex r = false -> search r <> EmptyString ->
  (String.length (search r) < String.length (replacement r))%nat ->
  applies r c = true -> (String.length c < String.length (step c r))%nat.
Proof.
  destruct r as [o n rx g]. cbn [regex search replacement].
  intros -> Hne Hlen H. unfold step. rewrite H, substitute_plain.
  apply (replace_grows o n Hne Hlen (String.length c) c (Nat.le_refl _)).
  unfold applies, found in H. cbn [regex search] in H. now apply andb_true_iff in H as [H _].
Qed.

(** The rules of [patch_w8a8_utils] and [patch_matcher_utils] keep their
    pattern inside the replacement. *)
Lemma wrapping_rules u r :
  u = W8a8Utils \/ u = MatcherUtils -> In r (rules u) ->
  regex r = false /\ search r <> EmptyString /\
  contains (search r) (replacement r) = true /\
  (guarded r = true -> exists t, replacement r = search r +:+ t) /\
  (String.length (search r) < String.length (replacement r))%nat.
Proof.
  intros [->| ->]; cbn [rules fp8_patterns map In]; intros H.
  - destruct H as [<-|[<-|[]]];
      (split; [reflexivity|]); (split; [discriminate|]); (split; [vm_compute; reflexivity|]);
      (split; [discriminate | vm_compute; lia]).
  - destruct H as [<-|[<-|[<-|[<-|[]]]]];
      (split; [reflexivity|]); (split; [discriminate|]); (split; [vm_compute; reflexivity|]);
      (split; [|vm_compute; lia]).
    + discriminate.
    + intros _.
      exists (" if hasattr(torch.ops._C, " +:+ dq +:+ "static_scaled_fp8_quant" +:+ dq
              +:+ ") else None"). reflexivity.
    + intros _.
      exists (" if hasattr(torch.ops._C, " +:+ dq +:+ "dynamic_scaled_fp8_quant" +:+ dq
              +:+ ") else None"). reflexivity.
    + intros _.
      exists (" if hasattr(torch.ops._C, " +:+ dq +:+ "dynamic_per_token_scaled_fp8_quant" +:+ dq
              +:+ ") else None"). reflexivity.
Qed.

(** X12.  Every rule of [patch_w8a8_utils] and [patch_matcher_utils] applies
    again to its own result, and makes the text longer each time: the
    replacement holds the pattern, and the test of the loop of
    [patch_matcher_utils] looks for [hasattr] before the pattern, where the
    replacement puts none.  Only the marker test keeps a second run from
    wrapping again. *)
Theorem rule_applies_again u r c :
  u = W8a8Utils \/ u = MatcherUtils ->
  In r (rules u) ->
  applies r c = true ->
  applies r (step c r) = true /\
  (String.length c < String.length (step c r))%nat.
Proof.
  intros Hu Hin Happ.
  destruct (wrapping_rules u r Hu Hin) as (Hrx & Hne & Hcn & Hg & Hlen).
  split; [|now apply step_grows].
  unfold step. rewrite Happ. now apply applies_again.
Qed.

Lemma rule_applies_again_witness :
  let r := fp8_rule ("torch.ops._C.static_scaled_fp8_quant.default",
                     "torch.ops._C.static_scaled_fp8_quant.default if hasattr(torch.ops._C, "
                     +:+ dq +:+ "static_scaled_fp8_quant" +:+ dq +:+ ") else None") in
  step Sample.quant_line r = Sample.quant_line_wrapped /\
  applies r (step Sample.quant_line r) = true /\
  (String.length Sample.quant_line < String.length (step Sample.quant_line r))%nat.
Proof.
  intros r. split; [vm_compute; reflexivity|].
  apply (rule_applies_again MatcherUtils r Sample.quant_line);
    [right; reflexivity | right; left; reflexivity | vm_compute; reflexivity].
Defined.

(** ** A file that [patch_w8a8_utils] wraps at every run *)

(** X13.  A [w8a8_utils.py] that holds the assignment of
    [CUTLASS_BLOCK_FP8_SUPPORTED], and neither the assignment of
    [CUTLASS_FP8_SUPPORTED] nor the marker: the first run wraps the
    assignment and leaves no marker, and the second run, reported as
    applied-partial, wraps it again; the file grows at every run. *)
Theorem w8a8_block_flag_wrapped_again dir w n :
  files w !! target dir W8a8Utils = Some n ->
  readable n = true ->
  writable n = true ->
  contains w8a8_marker1 (universal_newlines (data n)) = false ->
  contains w8a8_old (universal_newlines (data n)) = false ->
  contains w8a8_old2 (universal_newlines (data n)) = true ->
  let c := universal_newlines (data n) in
  let c1 := replace w8a8_old2 w8a8_new2 c in
  let c2 := replace w8a8_old2 w8a8_new2 c1 in
  let w1 := snd (patch dir W8a8Utils w) in
  let w2 := snd (patch dir W8a8Utils w1) in
  files w1 !! target dir W8a8Utils = Some (Node c1 true true) /\
  fst (observe dir W8a8Utils w1) = Ok AppliedPartial /\
  files w2 !! target dir W8a8Utils = Some (Node c2 true true) /\
  (String.length c < String.length c1 < String.length c2)%nat.
Proof.
  intros Hf Hr Hw Hm Ho Ho2 c c1 c2 w1 w2. fold c in Hm, Ho, Ho2.
  assert (Hne2 : w8a8_old2 <> EmptyString) by discriminate.
  assert (Hrun : forall x, contains w8a8_old x = false -> contains w8a8_old2 x = true ->
            run_rules (rules W8a8Utils) x = (replace w8a8_old2 w8a8_new2 x, 1%nat)).
  { intros x Hx Hx2. cbn [rules]. rewrite !run_rules_cons. cbn [run_rules fst snd].
    unfold step. rewrite !applies_plain, Hx, Hx2. now rewrite substitute_plain. }
  assert (Hunmarked : forall x, contains w8a8_marker1 x = false ->
            already_applied W8a8Utils x = false).
  { intros x Hx. cbn [already_applied]. now rewrite Hx. }
  assert (Hm1 : contains w8a8_marker1 c1 = false).
  { apply replace_creates_none; [exact Hne2 | vm_compute; reflexivity | exact Hm]. }
  assert (Ho1 : contains w8a8_old c1 = false).
  { apply replace_creates_none; [exact Hne2 | vm_compute; reflexivity | exact Ho]. }
  assert (Ho21 : contains w8a8_old2 c1 = true).
  { eapply contains_trans; [|apply replace_present; [exact Hne2 | exact Ho2]].
    vm_compute. reflexivity. }
  assert (Hc1 : rewritten W8a8Utils c = c1) by (unfold rewritten; now rewrite Hrun).
  assert (Hread1 : universal_newlines c1 = c1).
  { rewrite <- Hc1. apply rewritten_reads_back. }
  destruct (patch_apply dir W8a8Utils w n Hf Hr (Hunmarked c Hm) Hw) as (lines & Hp & _).
  fold c in Hp. rewrite Hc1 in Hp. unfold patched_world in Hp. rewrite Hr, Hw in Hp.
  assert (Hf1 : files w1 !! target dir W8a8Utils = Some (Node c1 true true)).
  { subst w1. rewrite Hp. cbn [snd files]. apply lookup_insert_eq. }
  assert (Ha1 : already_applied W8a8Utils (universal_newlines (data (Node c1 true true)))
                = false).
  { cbn [data]. rewrite Hread1. now apply Hunmarked. }
  destruct (observe_apply dir W8a8Utils w1 _ Hf1 eq_refl Ha1 eq_refl) as (lines1 & Hobs).
  destruct (patch_apply dir W8a8Utils w1 _ Hf1 eq_refl Ha1 eq_refl) as (lines1' & Hp1 & _).
  cbn [data readable writable] in Hobs, Hp1. rewrite Hread1 in Hobs, Hp1.
  unfold applied_count in Hobs. unfold rewritten in Hp1.
  rewrite (Hrun c1 Ho1 Ho21) in Hobs, Hp1. cbn [fst snd] in Hobs, Hp1.
  split; [exact Hf1|]. split; [now rewrite Hobs|].
  split.
  { subst w2. rewrite Hp1. cbn [snd files patched_world]. apply lookup_insert_eq. }
  assert (Hlen : (String.length w8a8_old2 < String.length w8a8_new2)%nat)
    by (vm_compute; lia).
  split.
  - now apply (replace_grows _ _ Hne2 Hlen (String.length c) c (Nat.le_refl _)).
  - now apply (replace_grows _ _ Hne2 Hlen (String.length c1) c1 (Nat.le_refl _)).
Qed.

Lemma w8a8_block_flag_wrapped_again_witness :
  let n := Sample.file (w8a8_old2 +:+ nl) in
  let w := Sample.only W8a8Utils n in
  let c := universal_newlines (data n) in
  let c1 := replace w8a8_old2 w8a8_new2 c in
  let c2 := replace w8a8_old2 w8a8_new2 c1 in
  let w1 := snd (patch Sample.dir W8a8Utils w) in
  let w2 := snd (patch Sample.dir W8a8Utils w1) in
  files w1 !! target Sample.dir W8a8Utils = Some (Node c1 true true) /\
  fst (observe Sample.dir W8a8Utils w1) = Ok AppliedPartial /\
  files w2 !! target Sample.dir W8a8Utils = Some (Node c2 true true) /\
  (String.length c < String.length c1 < String.length c2)%nat.
Proof.
  intros n w.
  apply (w8a8_block_flag_wrapped_again Sample.dir w n); vm_compute; reflexivity.
Defined.

(** ** The result of [main] *)








(** ** The file operations of a run, in order *)



